(** * Online Bookstore (NestJS + Prisma): the authentication subsystem

    A shallow embedding of [AuthService] (register, login,
    OAuthGoogleCallback), of the [AuthGuard] applied to protected routes and
    of the three identity tables they work on, followed by the properties of
    the specification that concern them.

    Asynchronous calls are run to completion one after the other: a service
    method is a function from the database to an outcome and the database it
    leaves behind. *)

From Stdlib Require Import Ascii.
From stdpp Require Import base decidable option list strings gmap pretty.

Set Default Proof Using "Type".

(** ** JavaScript conventions the source relies on *)

Module Js.

(** [String.prototype.split] with a one-character separator: every
    occurrence cuts, empty pieces are kept, and the result is never empty. *)
Fixpoint split (sep : ascii) (s : string) : list string :=
  match s with
  | EmptyString => [EmptyString]
  | String c rest =>
      if Ascii.eqb c sep then EmptyString :: split sep rest
      else match split sep rest with
           | piece :: pieces => String c piece :: pieces
           | [] => [String c EmptyString]
           end
  end.

(** Truthiness of a value that is a string, [null] or [undefined]: only a
    non-empty string is truthy. *)
Definition truthy (v : option string) : bool :=
  match v with
  | Some s => negb (String.eqb s "")
  | None => false
  end.

(** [a || b] on such values, where [b] is a string. *)
Definition or_else (a : option string) (b : string) : string :=
  match a with
  | Some s => if String.eqb s "" then b else s
  | None => b
  end.

End Js.

(** ** Data model (the Prisma schema, as the migration declares it) *)

Inductive Role := SUPER_ADMIN | ADMIN | SELLER | CUSTOMER | MODERATOR.

Inductive OAuthProvider := Google | FACEBOOK | GITHUB | APPLE.

Global Instance Role_eq_dec : EqDecision Role.
Proof. solve_decision. Defined.

Global Instance OAuthProvider_eq_dec : EqDecision OAuthProvider.
Proof. solve_decision. Defined.

Module User.
(** A row of table [user].  The creation and update timestamps, which no
    code reads, are left out. *)
Record t := mk {
  id : string;
  email : string;
  password : option string;
  username : option string;
  firstName : option string;
  lastName : option string;
  role : Role;
  isEmailVerified : bool;
  isTwoFA : bool;
  twoFASecret : option string;
  avatarUrl : option string;
  locale : option string;
  timezone : option string;
  lastLoginAt : option N;
  isActive : bool
}.
End User.

Module OAuthAccount.
(** A row of table [oauthaccount]; the provider's own tokens, which the
    service never fills in, are left out. *)
Record t := mk {
  id : string;
  userId : string;
  provider : OAuthProvider;
  providerId : string
}.
End OAuthAccount.

Module RefreshToken.
(** A row of table [refresh_token]. *)
Record t := mk {
  id : string;
  token : string;
  userId : string;
  expiresAt : N
}.
End RefreshToken.

(** The database: the three tables in insertion order, and the number of
    identifiers drawn so far ([cuid()] defaults of the primary keys). *)
Record Db := mkDb {
  users : list User.t;
  oauthAccounts : list OAuthAccount.t;
  refreshTokens : list RefreshToken.t;
  idCount : nat
}.

Definition cuid (n : nat) : string := "c" +:+ pretty n.

(** ** Outcomes *)

(** What a handler can throw: the three NestJS HTTP exceptions the source
    raises, a rejected write of the storage layer (Prisma's P2002 and P2003,
    with the constraint's name) and JavaScript's [TypeError]. *)
Inductive Exception :=
  | BadRequestException (message : string)
  | ConflictException (message : string)
  | ForbiddenException (message : string)
  | PrismaClientKnownRequestError (code : string) (target : string)
  | TypeError (message : string).

(** The status the client sees: the exception's own for an HTTP exception,
    500 from the framework's default filter for anything else. *)
Definition getStatus (e : Exception) : nat :=
  match e with
  | BadRequestException _ => 400
  | ConflictException _ => 409
  | ForbiddenException _ => 403
  | PrismaClientKnownRequestError _ _ => 500
  | TypeError _ => 500
  end.

Inductive Result (A : Type) :=
  | Ok (a : A)
  | Throw (e : Exception).
Arguments Ok {A} a.
Arguments Throw {A} e.

(** A computation over the database that may throw. *)
Definition M (A : Type) : Type := Db → Result A * Db.

Definition ret {A} (a : A) : M A := λ db, (Ok a, db).
Definition throw {A} (e : Exception) : M A := λ db, (Throw e, db).
Definition bind {A B} (m : M A) (k : A → M B) : M B :=
  λ db, match m db with
        | (Ok a, db') => k a db'
        | (Throw e, db') => (Throw e, db')
        end.

Notation "'await' x ← m ; k" := (bind m (λ x, k))
  (at level 100, x name, m at level 99, k at level 100, right associativity,
   format "'[v' 'await'  x  ←  m ; '/' k ']'").

(** ** The storage layer: the Prisma calls the service makes *)

Module Prisma.

Definition has_email (e : string) (u : User.t) : bool :=
  String.eqb (User.email u) e.

Definition owned_by (uid : string) (a : OAuthAccount.t) : bool :=
  String.eqb (OAuthAccount.userId a) uid.

Definition is_provider (p : OAuthProvider) (a : OAuthAccount.t) : bool :=
  bool_decide (OAuthAccount.provider a = p).

Definition has_subject (p : OAuthProvider) (sub : string)
    (a : OAuthAccount.t) : bool :=
  is_provider p a && String.eqb (OAuthAccount.providerId a) sub.

(** [db.user.findFirst({ where: { email } })] *)
Definition user_findFirst (e : string) : M (option User.t) :=
  λ db, (Ok (find (has_email e) (users db)), db).

(** [db.user.findFirst({ where: { email }, include: { OAuthAccount: true } })] *)
Definition user_findFirst_include (e : string)
    : M (option (User.t * list OAuthAccount.t)) :=
  λ db, (Ok (match find (has_email e) (users db) with
             | Some u => Some (u, List.filter (owned_by (User.id u))
                                             (oauthAccounts db))
             | None => None
             end), db).

(** The fields [db.user.create] is given; every other column takes its
    default. *)
Record UserCreateInput := {
  data_email : string;
  data_password : option string;
  data_username : option string;
  data_firstName : option string;
  data_lastName : option string
}.

Definition new_user (n : nat) (d : UserCreateInput) : User.t :=
  {| User.id := cuid n;
     User.email := data_email d;
     User.password := data_password d;
     User.username := data_username d;
     User.firstName := data_firstName d;
     User.lastName := data_lastName d;
     User.role := CUSTOMER;
     User.isEmailVerified := false;
     User.isTwoFA := false;
     User.twoFASecret := None;
     User.avatarUrl := None;
     User.locale := None;
     User.timezone := None;
     User.lastLoginAt := None;
     User.isActive := true |}.

(** [db.user.create]: rejected by the unique index [user_email_key]. *)
Definition user_create (d : UserCreateInput) : M User.t :=
  λ db,
    if existsb (has_email (data_email d)) (users db)
    then (Throw (PrismaClientKnownRequestError "P2002" "user_email_key"), db)
    else
      let u := new_user (idCount db) d in
      (Ok u, mkDb (users db ++ [u]) (oauthAccounts db) (refreshTokens db)
                  (S (idCount db))).

(** [db.oAuthAccount.create]: rejected by the unique indexes on
    (provider, providerId) and on (userId, provider), which the storage layer
    checks as the row goes in, and then by the foreign key to [user]. *)
Definition oAuthAccount_create (p : OAuthProvider) (sub uid : string)
    : M OAuthAccount.t :=
  λ db,
    if existsb (has_subject p sub) (oauthAccounts db)
    then (Throw (PrismaClientKnownRequestError "P2002"
                   "oauthaccount_provider_providerId_key"), db)
    else if existsb (λ a, owned_by uid a && is_provider p a) (oauthAccounts db)
    then (Throw (PrismaClientKnownRequestError "P2002"
                   "oauthaccount_userId_provider_key"), db)
    else if negb (existsb (λ u, String.eqb (User.id u) uid) (users db))
    then (Throw (PrismaClientKnownRequestError "P2003"
                   "oauthaccount_userId_fkey"), db)
    else
      let a := OAuthAccount.mk (cuid (idCount db)) uid p sub in
      (Ok a, mkDb (users db) (oauthAccounts db ++ [a]) (refreshTokens db)
                  (S (idCount db))).

End Prisma.

(** ** Injected collaborators *)

(** The [bcrypt] module: [hash(data, rounds)] and [compare(data, encrypted)]. *)
Class Bcrypt := {
  bcrypt_hash : string → nat → string;
  bcrypt_compare : string → string → bool
}.

(** [JwtService], configured once with the secret and a seven-day expiry: a
    payload is an object with string-valued claims; verification of anything
    that is not a valid token throws, here [None].  Signing stamps the payload
    with [iat] and [exp] read from the clock, so the string depends on the
    instant: an instance of this class is the service as it answers during
    one request, and two requests are in general served by two instances. *)
Class JwtService := {
  signAsync : gmap string string → string;
  verifyAsync : string → option (gmap string string)
}.

(** ** AuthService *)

Module AuthService.
Section service.
Context `{!Bcrypt, !JwtService}.

(** The identity Passport's Google strategy leaves in [req.user]. *)
Record GoogleUser := {
  sub : string;
  g_email : string;
  g_firstName : option string;
  g_lastName : option string;
  g_username : option string
}.

Record RegisterDto := {
  r_email : string;
  r_password : string;
  r_firstName : string;
  r_lastName : string;
  r_username : string
}.

Record LoginDto := {
  l_email : string;
  l_password : string
}.

(** What a handler returns: [register] returns the token itself, the other
    two the object [{ token }]. *)
Inductive Response :=
  | BareToken (token : string)
  | TokenObject (token : string).

(** The payload every handler signs: [{ userId }]. *)
Definition payload_of (uid : string) : gmap string string :=
  {[ "userId" := uid ]}.

Definition OAuthGoogleCallback (user : GoogleUser) : M Response :=
  await findUser ← Prisma.user_findFirst_include (g_email user);
  match findUser with
  | None =>
      await newUser ← Prisma.user_create
        {| Prisma.data_email := g_email user;
           Prisma.data_password := None;
           Prisma.data_username :=
             Some (Js.or_else (g_username user)
                     (hd "" (Js.split "@"%char (g_email user))));
           Prisma.data_firstName := g_firstName user;
           Prisma.data_lastName := g_lastName user |};
      await _ ← Prisma.oAuthAccount_create Google (sub user) (User.id newUser);
      ret (TokenObject (signAsync (payload_of (User.id newUser))))
  | Some (findUser, accounts) =>
      let findAccount := find (Prisma.is_provider Google) accounts in
      await _ ← (match findAccount with
                 | None => await _ ← Prisma.oAuthAccount_create Google
                                        (sub user) (User.id findUser);
                           ret ()
                 | Some _ => ret ()
                 end);
      ret (TokenObject (signAsync (payload_of (User.id findUser))))
  end.

Definition register (data : RegisterDto) : M Response :=
  await findUser ← Prisma.user_findFirst (r_email data);
  match findUser with
  | Some _ => throw (ConflictException "User already exists")
  | None =>
      let hashedPassword := bcrypt_hash (r_password data) 12 in
      await user ← Prisma.user_create
        {| Prisma.data_email := r_email data;
           Prisma.data_password := Some hashedPassword;
           Prisma.data_username := Some (r_username data);
           Prisma.data_firstName := Some (r_firstName data);
           Prisma.data_lastName := Some (r_lastName data) |};
      ret (BareToken (signAsync (payload_of (User.id user))))
  end.

Definition login (data : LoginDto) : M Response :=
  await find_user ← Prisma.user_findFirst (l_email data);
  match find_user with
  | None => throw (BadRequestException "User not found!")
  | Some find_user =>
      if negb (Js.truthy (User.password find_user))
      then throw (BadRequestException "password no set")
      else
        let comparePassword :=
          bcrypt_compare (l_password data)
                         (default "" (User.password find_user)) in
        if negb comparePassword
        then throw (BadRequestException "Email or Password incorrect")
        else ret (TokenObject (signAsync (payload_of (User.id find_user))))
  end.

End service.
End AuthService.

(** ** register on the request body as it arrives *)

(** The controller's [@Body()] has an inline type and no validation runs, so
    [register] receives the parsed body whole, and [{ ...data, password }]
    hands every key of it to [db.user.create].  [AuthService.register] above
    is the handler on a body that has the five declared fields and no other;
    [register_body] is the handler on a body that carries more. *)
Module RequestBody.
Section body.
Context `{!Bcrypt, !JwtService}.
Import AuthService.

(** A nested [create] on the user's relation to [oauthaccount], and one on
    its relation to [refresh_token]. *)
Record AccountCreate := {
  c_provider : OAuthProvider;
  c_providerId : string
}.

Record RefreshTokenCreate := {
  c_token : string;
  c_expiresAt : N
}.

(** What a body can carry besides the declared fields and [db.user.create]
    accepts: values for further columns of [user], and nested creates on the
    two relations.  Other forms of nested write ([connect] and the like) and
    the relations to the shop's tables are not represented. *)
Record Extras := {
  x_role : option Role;
  x_isEmailVerified : option bool;
  x_isTwoFA : option bool;
  x_twoFASecret : option string;
  x_isActive : option bool;
  x_accounts : list AccountCreate;
  x_refreshTokens : list RefreshTokenCreate
}.

Definition no_extras : Extras :=
  {| x_role := None; x_isEmailVerified := None; x_isTwoFA := None;
     x_twoFASecret := None; x_isActive := None;
     x_accounts := []; x_refreshTokens := [] |}.

Record RegisterBody := {
  declared : RegisterDto;
  extras : Extras
}.

(** The body has the five declared fields and nothing else. *)
Definition declared_only (body : RegisterBody) : Prop :=
  extras body = no_extras.

(** The row with the columns the body names set as the body says. *)
Definition override (x : Extras) (u : User.t) : User.t :=
  {| User.id := User.id u;
     User.email := User.email u;
     User.password := User.password u;
     User.username := User.username u;
     User.firstName := User.firstName u;
     User.lastName := User.lastName u;
     User.role := default (User.role u) (x_role x);
     User.isEmailVerified :=
       default (User.isEmailVerified u) (x_isEmailVerified x);
     User.isTwoFA := default (User.isTwoFA u) (x_isTwoFA x);
     User.twoFASecret :=
       match x_twoFASecret x with
       | Some secret => Some secret
       | None => User.twoFASecret u
       end;
     User.avatarUrl := User.avatarUrl u;
     User.locale := User.locale u;
     User.timezone := User.timezone u;
     User.lastLoginAt := User.lastLoginAt u;
     User.isActive := default (User.isActive u) (x_isActive x) |}.

(** The insertion of the user row: rejected by the unique index on
    [email]. *)
Definition user_insert (d : Prisma.UserCreateInput) (x : Extras) : M User.t :=
  λ db,
    if existsb (Prisma.has_email (Prisma.data_email d)) (users db)
    then (Throw (PrismaClientKnownRequestError "P2002" "user_email_key"), db)
    else
      let u := override x (Prisma.new_user (idCount db) d) in
      (Ok u, mkDb (users db ++ [u]) (oauthAccounts db) (refreshTokens db)
                  (S (idCount db))).

(** The insertion of a refresh-token row: rejected by the unique index on
    [token]. *)
Definition refreshToken_insert (c : RefreshTokenCreate) (uid : string)
    : M RefreshToken.t :=
  λ db,
    if existsb (λ r, String.eqb (RefreshToken.token r) (c_token c))
               (refreshTokens db)
    then (Throw (PrismaClientKnownRequestError "P2002"
                   "refresh_token_token_key"), db)
    else
      let r := RefreshToken.mk (cuid (idCount db)) (c_token c) uid
                               (c_expiresAt c) in
      (Ok r, mkDb (users db) (oauthAccounts db) (refreshTokens db ++ [r])
                  (S (idCount db))).

Fixpoint nested_accounts (uid : string) (l : list AccountCreate) : M unit :=
  match l with
  | [] => ret ()
  | c :: rest =>
      await _ ← Prisma.oAuthAccount_create (c_provider c) (c_providerId c) uid;
      nested_accounts uid rest
  end.

Fixpoint nested_refreshTokens (uid : string) (l : list RefreshTokenCreate)
    : M unit :=
  match l with
  | [] => ret ()
  | c :: rest =>
      await _ ← refreshToken_insert c uid;
      nested_refreshTokens uid rest
  end.

(** Prisma runs a create with nested writes in one transaction: when any of
    its insertions is rejected, none remains. *)
Definition transaction {A} (m : M A) : M A :=
  λ db, match m db with
        | (Ok a, db') => (Ok a, db')
        | (Throw e, _) => (Throw e, db)
        end.

(** [db.user.create({ data })] for the data of a body. *)
Definition user_create_nested (d : Prisma.UserCreateInput) (x : Extras)
    : M User.t :=
  transaction
    (await u ← user_insert d x;
     await _ ← nested_accounts (User.id u) (x_accounts x);
     await _ ← nested_refreshTokens (User.id u) (x_refreshTokens x);
     ret u).

Definition register_body (body : RegisterBody) : M Response :=
  let data := declared body in
  await findUser ← Prisma.user_findFirst (r_email data);
  match findUser with
  | Some _ => throw (ConflictException "User already exists")
  | None =>
      let hashedPassword := bcrypt_hash (r_password data) 12 in
      await user ← user_create_nested
        {| Prisma.data_email := r_email data;
           Prisma.data_password := Some hashedPassword;
           Prisma.data_username := Some (r_username data);
           Prisma.data_firstName := Some (r_firstName data);
           Prisma.data_lastName := Some (r_lastName data) |}
        (extras body);
      ret (BareToken (signAsync (payload_of (User.id user))))
  end.

End body.
End RequestBody.

(** ** AuthGuard *)

Module AuthGuard.
Section guard.
Context `{!JwtService}.

(** [request.user = { id, role }]: each is [undefined] when the verified
    payload has no such claim. *)
Record AttachedUser := {
  user_id : option string;
  user_role : option string
}.

(** The part of the HTTP request the guard looks at.  Header names arrive
    in lower case; [cookies] is [undefined] unless a cookie parser ran. *)
Record Request := {
  headers : gmap string string;
  cookies : option (gmap string string);
  user : option AttachedUser
}.

(** [request.headers['authoriztion']?.split(' ')[1]] *)
Definition header_token (request : Request) : option string :=
  match headers request !! "authoriztion" with
  | Some h => Js.split " "%char h !! 1%nat
  | None => None
  end.

(** [jwtService.verifyAsync(token)], which throws on [undefined] too. *)
Definition verify (token : option string) : option (gmap string string) :=
  match token with
  | Some t => verifyAsync t
  | None => None
  end.

(** [Ok request'] stands for returning [true] after [request.user] has been
    set. *)
Definition canActivate (request : Request) : Result Request :=
  let token := header_token request in
  let token :=
    if negb (Js.truthy token)
    then match cookies request with
         | Some c => Ok (c !! "token")
         | None => Throw (TypeError
             "Cannot read properties of undefined (reading 'token')")
         end
    else Ok token in
  match token with
  | Throw e => Throw e
  | Ok token =>
      match verify token with
      | Some payload =>
          Ok {| headers := headers request;
                cookies := cookies request;
                user := Some {| user_id := payload !! "id";
                                user_role := payload !! "role" |} |}
      | None => Throw (ForbiddenException "Token invalid")
      end
  end.

End guard.
End AuthGuard.

(** ** Refresh-token rotation *)

(** Modelled from the spec: the repository declares table [refresh_token]
    but has no code that issues, rotates or revokes a refresh token.  The
    definitions of this module follow the specification's Token Issuer
    (issueAccessToken, issueRefreshToken, rotateRefreshToken) word for word:
    look the record up by value, fail with InvalidToken if it is absent or
    expired, otherwise delete it and issue a new pair. *)
Module TokenIssuer.
Section issuer.
Context `{!JwtService}.

Inductive AuthError := InvalidToken.

Record TokenPair := {
  accessToken : string;
  refreshToken : string
}.

(** Seven days, in seconds. *)
Definition refreshTtl : N := 604800.

(** The opaque random string of the n-th draw. *)
Definition randomToken (n : nat) : string := "r" +:+ pretty n.

Definition role_name (r : Role) : string :=
  match r with
  | SUPER_ADMIN => "SUPER_ADMIN"
  | ADMIN => "ADMIN"
  | SELLER => "SELLER"
  | CUSTOMER => "CUSTOMER"
  | MODERATOR => "MODERATOR"
  end.

Definition has_token (t : string) (r : RefreshToken.t) : bool :=
  String.eqb (RefreshToken.token r) t.

Definition has_id (uid : string) (u : User.t) : bool :=
  String.eqb (User.id u) uid.

(** Modelled from the spec: issueAccessToken, absent from the repository; a
    signed token encoding user id and role. *)
Definition issueAccessToken (userId : string) (role : Role) : string :=
  signAsync {[ "userId" := userId; "role" := role_name role ]}.

(** Modelled from the spec: issueRefreshToken, absent from the repository;
    it draws a random opaque string and persists a record that expires after
    seven days. *)
Definition issueRefreshToken (now : N) (userId : string) (db : Db)
    : string * Db :=
  let t := randomToken (idCount db) in
  let r := RefreshToken.mk (cuid (idCount db)) t userId (now + refreshTtl)%N in
  (t, mkDb (users db) (oauthAccounts db) (refreshTokens db ++ [r])
           (S (idCount db))).

(** Modelled from the spec: revoke, absent from the repository; it deletes
    one record by its token value and is idempotent. *)
Definition revoke (t : string) (db : Db) : Db :=
  mkDb (users db) (oauthAccounts db)
       (List.filter (λ r, negb (has_token t r)) (refreshTokens db))
       (idCount db).

(** Modelled from the spec: rotateRefreshToken, absent from the repository;
    it looks the record up by value, fails with InvalidToken if it is absent
    or expired (an expired record is deleted on reuse), and otherwise deletes
    the old record and issues a new pair. *)
Definition rotateRefreshToken (now : N) (oldToken : string) (db : Db)
    : (AuthError + TokenPair) * Db :=
  match find (has_token oldToken) (refreshTokens db) with
  | None => (inl InvalidToken, db)
  | Some r =>
      if (RefreshToken.expiresAt r <=? now)%N
      then (inl InvalidToken, revoke oldToken db)
      else
        match find (has_id (RefreshToken.userId r)) (users db) with
        | None => (inl InvalidToken, db)
        | Some u =>
            let '(t, db') :=
              issueRefreshToken now (User.id u) (revoke oldToken db) in
            (inr {| accessToken := issueAccessToken (User.id u) (User.role u);
                    refreshToken := t |}, db')
        end
  end.

(** Modelled from the spec: refresh of the Auth Gateway, absent from the
    repository; it delegates to the rotation. *)
Definition refresh := rotateRefreshToken.

(** The storage invariants the rotation relies on: a refresh token belongs
    to a user of the table, and its value is one of the strings drawn so
    far. *)
Definition wf (db : Db) : Prop :=
  Forall (λ r, RefreshToken.userId r ∈ User.id <$> users db)
         (refreshTokens db)
  ∧ Forall (λ r, RefreshToken.token r ∈ randomToken <$> seq 0 (idCount db))
           (refreshTokens db).

End issuer.
End TokenIssuer.

(** ** Reference collaborators

    Executable stand-ins for [bcrypt] and [JwtService], for running the model
    on concrete requests.  A token is [jwt.] followed by the user id it was
    signed for. *)

Module Reference.

Definition hash (data : string) (rounds : nat) : string :=
  "$2b$" +:+ pretty rounds +:+ "$" +:+ data.

Definition compare (data encrypted : string) : bool :=
  String.eqb encrypted (hash data 10) || String.eqb encrypted (hash data 12).

Definition sign (payload : gmap string string) : string :=
  "jwt." +:+ default "" (payload !! "userId").

Definition verify (token : string) : option (gmap string string) :=
  match token with
  | String "j" (String "w" (String "t" (String "." uid))) =>
      Some {[ "userId" := uid ]}
  | _ => None
  end.

End Reference.

Global Instance reference_bcrypt : Bcrypt :=
  {| bcrypt_hash := Reference.hash; bcrypt_compare := Reference.compare |}.

Global Instance reference_jwt : JwtService :=
  {| signAsync := Reference.sign; verifyAsync := Reference.verify |}.

(** The stand-in at a later instant: it signs the same payload into another
    string. *)
Definition reference_jwt_later : JwtService :=
  {| signAsync := λ payload, "jwt+1." +:+ default "" (payload !! "userId");
     verifyAsync := λ _, None |}.

(** ** Storage invariants *)

(** What the schema guarantees of every database the service meets: the
    unique indexes on [user.email], on [oauthaccount(provider, providerId)]
    and on [oauthaccount(userId, provider)], the primary key of [user], the
    foreign key from [oauthaccount] to [user], and that the identifiers in use
    were drawn from the generator. *)
Record Db_wf (db : Db) : Prop := {
  wf_email : NoDup (User.email <$> users db);
  wf_user_id : NoDup (User.id <$> users db);
  wf_subject : NoDup ((λ a, (OAuthAccount.provider a,
                             OAuthAccount.providerId a)) <$> oauthAccounts db);
  wf_user_provider : NoDup ((λ a, (OAuthAccount.userId a,
                                   OAuthAccount.provider a)) <$> oauthAccounts db);
  wf_owner : Forall (λ a, OAuthAccount.userId a ∈ User.id <$> users db)
                    (oauthAccounts db);
  wf_drawn : Forall (λ u, User.id u ∈ cuid <$> seq 0 (idCount db)) (users db)
}.

(** The number of users with a given email, and of a user's accounts with a
    given provider. *)
Definition count_users (e : string) (db : Db) : nat :=
  length (List.filter (Prisma.has_email e) (users db)).

Definition count_accounts (uid : string) (p : OAuthProvider) (db : Db) : nat :=
  length (List.filter (λ a, Prisma.owned_by uid a && Prisma.is_provider p a)
                      (oauthAccounts db)).

(** ** Sample databases and requests *)

Module Sample.
Import AuthService AuthGuard.

Definition empty : Db := mkDb [] [] [] 0.

Definition alice_dto : RegisterDto :=
  {| r_email := "alice@example.com"; r_password := "pw123!";
     r_firstName := "Alice"; r_lastName := "A"; r_username := "alice" |}.

Definition alice_google : GoogleUser :=
  {| sub := "g-100"; g_email := "alice@example.com";
     g_firstName := Some "Alice"; g_lastName := Some "A";
     g_username := None |}.

(** Alice after registering by password. *)
Definition alice : User.t :=
  Prisma.new_user 0
    {| Prisma.data_email := "alice@example.com";
       Prisma.data_password := Some (Reference.hash "pw123!" 12);
       Prisma.data_username := Some "alice";
       Prisma.data_firstName := Some "Alice";
       Prisma.data_lastName := Some "A" |}.

Definition registered : Db := mkDb [alice] [] [] 1.

End Sample.

(** ** Vocabulary of the claims *)

(** Some user of the table has this email. *)
Definition user_with_email (e : string) (db : Db) : Prop :=
  ∃ u, u ∈ users db ∧ User.email u = e.

(** The user has an account with this provider. *)
Definition has_account (uid : string) (p : OAuthProvider) (db : Db) : Prop :=
  ∃ a, a ∈ oauthAccounts db ∧ OAuthAccount.userId a = uid
       ∧ OAuthAccount.provider a = p.

(** The provider's subject id is the providerId of some account. *)
Definition subject_linked (p : OAuthProvider) (sub : string) (db : Db) : Prop :=
  ∃ a, a ∈ oauthAccounts db ∧ OAuthAccount.provider a = p
       ∧ OAuthAccount.providerId a = sub.

Section vocabulary.
Context `{!JwtService}.
Import AuthService.

(** The property names of the value a handler returns. *)
Definition response_keys (r : Response) : list string :=
match r with
| BareToken _ => []
| TokenObject _ => ["token"]
end.

Definition response_token (r : Response) : string :=
match r with
| BareToken t => t
| TokenObject t => t
end.

(** The shape [{accessToken, refreshToken, user}]. *)
Definition token_pair_shape (r : Response) : Prop :=
"accessToken" ∈ response_keys r ∧ "refreshToken" ∈ response_keys r
∧ "user" ∈ response_keys r.

(** The fields the callback gives [db.user.create]. *)
Definition google_user_data (g : GoogleUser) : Prisma.UserCreateInput :=
{| Prisma.data_email := g_email g;
   Prisma.data_password := None;
   Prisma.data_username :=
     Some (Js.or_else (g_username g) (hd "" (Js.split "@"%char (g_email g))));
   Prisma.data_firstName := g_firstName g;
   Prisma.data_lastName := g_lastName g |}.

Definition token_for (uid : string) : Result Response :=
Ok (TokenObject (signAsync (payload_of uid))).

(** A computation that leaves table [refresh_token] as it found it,
  whatever its outcome. *)
Definition keeps_refresh_tokens {A} (m : M A) : Prop :=
∀ db, refreshTokens (snd (m db)) = refreshTokens db.

(** One signed token for some user id, and not the shape of a pair. *)
Definition single_jwt (r : Response) : Prop :=
(∃ uid, response_token r = signAsync (payload_of uid))
∧ ¬ token_pair_shape r.

End vocabulary.

(** ** Sample databases and requests, continued *)

Module Scenario.
Import AuthService AuthGuard Sample.

Definition user_of (n : nat) (e : string) (pw : option string)
    (twoFA active : bool) : User.t :=
  {| User.id := cuid n; User.email := e; User.password := pw;
     User.username := None; User.firstName := None; User.lastName := None;
     User.role := CUSTOMER; User.isEmailVerified := false;
     User.isTwoFA := twoFA; User.twoFASecret := None;
     User.avatarUrl := None; User.locale := None; User.timezone := None;
     User.lastLoginAt := None; User.isActive := active |}.

Definition alice_login : LoginDto :=
  {| l_email := "alice@example.com"; l_password := "pw123!" |}.

Definition alice_wrong : LoginDto :=
  {| l_email := "alice@example.com"; l_password := "guess" |}.

Definition carol_login : LoginDto :=
  {| l_email := "carol@example.com"; l_password := "pw123!" |}.

(** Alice with two-factor authentication switched on. *)
Definition alice_2fa : User.t :=
  user_of 0 "alice@example.com" (Some (Reference.hash "pw123!" 12)) true true.

Definition two_factor : Db := mkDb [alice_2fa] [] [] 1.

(** Alice deactivated, her Google account linked. *)
Definition alice_off : User.t :=
  user_of 0 "alice@example.com" None false false.

Definition deactivated : Db :=
  mkDb [alice_off] [OAuthAccount.mk (cuid 1) (cuid 0) Google "g-100"] [] 2.

(** Bob owns the Google account of subject g-100. *)
Definition bob : User.t := user_of 0 "bob@example.com" None false true.

Definition bob_account : OAuthAccount.t :=
  OAuthAccount.mk (cuid 1) (cuid 0) Google "g-100".

Definition only_bob : Db := mkDb [bob] [bob_account] [] 2.

(** Bob as above, and Alice registered by password under [c2]. *)
Definition alice2 : User.t :=
  user_of 2 "alice@example.com" (Some (Reference.hash "pw123!" 12)) false true.

Definition bob_and_alice : Db := mkDb [bob; alice2] [bob_account] [] 3.

(** Alice holds one refresh token, drawn first, expiring at 1000. *)
Definition alice_session : Db :=
  mkDb [alice] [] [RefreshToken.mk (cuid 1) (TokenIssuer.randomToken 0)
                     (cuid 0) 1000] 2.

(** A request with a valid bearer token in its authorization header. *)
Definition bearer_request : Request :=
  {| headers := {[ "authorization" := "Bearer jwt.c0" ]};
     cookies := Some ∅; user := None |}.

(** A request with the token [login] returned in its cookie. *)
Definition cookie_request : Request :=
  {| headers := ∅; cookies := Some {[ "token" := "jwt.c0" ]};
     user := None |}.

End Scenario.

Ltac wf_by_computation :=
  split; cbn [users oauthAccounts idCount]; compute_done.

(** ** SeederService *)

Module SeederService.
Section seeder.
Context `{!Bcrypt}.

(** The five values [configService.get] returns, strings as the source's
    casts say. *)
Record Config := {
  SUPERADMIN_USERNAME : string;
  SUPERADMIN_EMAIL : string;
  SUPERADMIN_PASSWORD : string;
  SUPERADMIN_FIRSTNAME : string;
  SUPERADMIN_LASTNAME : string
}.

(** What the seeder hands to its [Logger]: [log], [warn] or [error]. *)
Inductive LogEntry :=
  | Logged (message : string)
  | Warned (message : string)
  | Errored (e : Exception).

Definition has_username (n : string) (u : User.t) : bool :=
  match User.username u with
  | Some x => String.eqb x n
  | None => false
  end.

(** [prisma.user.findFirst({ where: { username } })] *)
Definition user_findFirst_username (n : string) : M (option User.t) :=
  λ db, (Ok (find (has_username n) (users db)), db).

Definition with_role (r : Role) (u : User.t) : User.t :=
  {| User.id := User.id u;
     User.email := User.email u;
     User.password := User.password u;
     User.username := User.username u;
     User.firstName := User.firstName u;
     User.lastName := User.lastName u;
     User.role := r;
     User.isEmailVerified := User.isEmailVerified u;
     User.isTwoFA := User.isTwoFA u;
     User.twoFASecret := User.twoFASecret u;
     User.avatarUrl := User.avatarUrl u;
     User.locale := User.locale u;
     User.timezone := User.timezone u;
     User.lastLoginAt := User.lastLoginAt u;
     User.isActive := User.isActive u |}.

(** [prisma.user.create] with the [role] column given: rejected by the
    unique index on [email], as every creation of a user is. *)
Definition user_create_role (d : Prisma.UserCreateInput) (r : Role)
    : M User.t :=
  λ db,
    if existsb (Prisma.has_email (Prisma.data_email d)) (users db)
    then (Throw (PrismaClientKnownRequestError "P2002" "user_email_key"), db)
    else
      let u := with_role r (Prisma.new_user (idCount db) d) in
      (Ok u, mkDb (users db ++ [u]) (oauthAccounts db) (refreshTokens db)
                  (S (idCount db))).

Definition admin_data (cfg : Config) : Prisma.UserCreateInput :=
  {| Prisma.data_email := SUPERADMIN_EMAIL cfg;
     Prisma.data_password := Some (bcrypt_hash (SUPERADMIN_PASSWORD cfg) 10);
     Prisma.data_username := Some (SUPERADMIN_USERNAME cfg);
     Prisma.data_firstName := Some (SUPERADMIN_FIRSTNAME cfg);
     Prisma.data_lastName := Some (SUPERADMIN_LASTNAME cfg) |}.

(** The value returned is the line the method logs. *)
Definition seedUsers (cfg : Config) : M LogEntry :=
  await findExistsAdmin ← user_findFirst_username (SUPERADMIN_USERNAME cfg);
  match findExistsAdmin with
  | None =>
      await _ ← user_create_role (admin_data cfg) SUPER_ADMIN;
      ret (Logged "SUPERADMIN CREATED")
  | Some _ => ret (Warned "Superadmin existed")
  end.

Definition seedAll (cfg : Config) : M LogEntry := seedUsers cfg.

(** [onModuleInit] catches whatever the seeding throws and logs it. *)
Definition onModuleInit (cfg : Config) (db : Db) : LogEntry * Db :=
  match seedAll cfg db with
  | (Ok entry, db') => (entry, db')
  | (Throw e, db') => (Errored e, db')
  end.

End seeder.
End SeederService.

(** ** Vocabulary of the further properties *)

(** The database with one more user row, and with one more account row. *)
Definition add_user (db : Db) (u : User.t) : Db :=
  mkDb (users db ++ [u]) (oauthAccounts db) (refreshTokens db) (S (idCount db)).

Definition add_account (db : Db) (a : OAuthAccount.t) : Db :=
  mkDb (users db) (oauthAccounts db ++ [a]) (refreshTokens db) (S (idCount db)).

(** The second database is the first with at most one user row and at most
    one account row appended, as many identifiers drawn as rows were added,
    and the refresh tokens untouched: nothing was updated or deleted. *)
Definition extends (db db' : Db) : Prop :=
  ∃ us accs,
    users db' = users db ++ us
    ∧ oauthAccounts db' = oauthAccounts db ++ accs
    ∧ length us ≤ 1 ∧ length accs ≤ 1
    ∧ refreshTokens db' = refreshTokens db
    ∧ idCount db' = idCount db + length us + length accs.

(** A user row with every privilege-bearing column at its default. *)
Definition plain_customer (u : User.t) : Prop :=
  User.role u = CUSTOMER ∧ User.isTwoFA u = false
  ∧ User.twoFASecret u = None ∧ User.isActive u = true
  ∧ User.isEmailVerified u = false ∧ User.lastLoginAt u = None.

(** The user can sign in some way: a password is stored or an account is
    linked. *)
Definition has_credential (db : Db) (u : User.t) : Prop :=
  is_Some (User.password u)
  ∨ ∃ a, a ∈ oauthAccounts db ∧ OAuthAccount.userId a = User.id u.

Definition all_have_credentials (db : Db) : Prop :=
  ∀ u, u ∈ users db → has_credential db u.

(** The character does not occur in the string. *)
Fixpoint free_of (c : ascii) (s : string) : bool :=
  match s with
  | EmptyString => true
  | String x rest => negb (Ascii.eqb x c) && free_of c rest
  end.

(** A JwtService that hands back, on verifying a token it signed for a
    user id, that payload's claims: only [iat] and [exp] may be added. *)
Definition jwt_returns_claims `{!JwtService} : Prop :=
  ∀ uid, ∃ payload,
    verifyAsync (signAsync (AuthService.payload_of uid)) = Some payload
    ∧ ∀ k, k ≠ "iat" → k ≠ "exp" →
        payload !! k = AuthService.payload_of uid !! k.

(** A request that presents the token in the [token] cookie only. *)
Definition cookie_only (t : string) : AuthGuard.Request :=
  {| AuthGuard.headers := ∅;
     AuthGuard.cookies := Some {[ "token" := t ]};
     AuthGuard.user := None |}.

(** The request as the guard leaves it when the payload is accepted. *)
Definition attach (request : AuthGuard.Request)
    (payload : gmap string string) : AuthGuard.Request :=
  {| AuthGuard.headers := AuthGuard.headers request;
     AuthGuard.cookies := AuthGuard.cookies request;
     AuthGuard.user :=
       Some {| AuthGuard.user_id := payload !! "id";
               AuthGuard.user_role := payload !! "role" |} |}.

(** A request to the running application, or a restart of it (which runs the
    seeder); what each leaves in the database; and a history of them. *)
Inductive Op `{!Bcrypt, !JwtService} :=
  | Register (body : RequestBody.RegisterBody)
  | Login (data : AuthService.LoginDto)
  | Callback (g : AuthService.GoogleUser)
  | Restart (cfg : SeederService.Config).

Definition step `{!Bcrypt, !JwtService} (db : Db) (op : Op) : Db :=
  match op with
  | Register body => snd (RequestBody.register_body body db)
  | Login data => snd (AuthService.login data db)
  | Callback g => snd (AuthService.OAuthGoogleCallback g db)
  | Restart cfg => snd (SeederService.onModuleInit cfg db)
  end.

Definition run `{!Bcrypt, !JwtService} (ops : list Op) (db : Db) : Db :=
  foldl step db ops.

(** The request, if a registration, carries the declared fields only. *)
Definition declared_op `{!Bcrypt, !JwtService} (op : Op) : Prop :=
  match op with
  | Register body => RequestBody.declared_only body
  | _ => True
  end.

(** A user row as the handlers or the seeder create it: a customer or the
    super admin, with every other privilege-bearing column at its default. *)
Definition as_created (u : User.t) : Prop :=
  (User.role u = CUSTOMER ∨ User.role u = SUPER_ADMIN)
  ∧ User.isTwoFA u = false ∧ User.twoFASecret u = None
  ∧ User.isActive u = true ∧ User.isEmailVerified u = false
  ∧ User.lastLoginAt u = None.

(** What holds of every database the application can be in: the schema's
    constraints, an empty refresh-token table, users as they are created, and
    as many identifiers drawn as there are user and account rows. *)
Definition sound_state (db : Db) : Prop :=
  Db_wf db
  ∧ refreshTokens db = []
  ∧ Forall as_created (users db)
  ∧ idCount db = length (users db) + length (oauthAccounts db).

Module Seeds.
Import SeederService.

Definition config : Config :=
  {| SUPERADMIN_USERNAME := "root";
     SUPERADMIN_EMAIL := "root@example.com";
     SUPERADMIN_PASSWORD := "s3cret";
     SUPERADMIN_FIRSTNAME := "Super";
     SUPERADMIN_LASTNAME := "Admin" |}.

(** A customer who registered under the user name the seeder looks for. *)
Definition squatter : User.t :=
  Prisma.new_user 0
    {| Prisma.data_email := "eve@example.com";
       Prisma.data_password := Some (Reference.hash "eve" 12);
       Prisma.data_username := Some "root";
       Prisma.data_firstName := None;
       Prisma.data_lastName := None |}.

Definition squatted : Db := mkDb [squatter] [] [] 1.

(** A customer who registered under the email the seeder will use. *)
Definition namesake : User.t :=
  Prisma.new_user 0
    {| Prisma.data_email := "root@example.com";
       Prisma.data_password := Some (Reference.hash "eve" 12);
       Prisma.data_username := Some "eve";
       Prisma.data_firstName := None;
       Prisma.data_lastName := None |}.

Definition email_taken : Db := mkDb [namesake] [] [] 1.

End Seeds.

(** * Properties *)

(** ** Lookups *)

Lemma existsb_false_find {A} (f : A → bool) (l : list A) :
  existsb f l = false ↔ find f l = None.
Proof.
  induction l as [|x l IH]; simpl; [done|].
  destruct (f x); simpl; [split; discriminate | exact IH].
Qed.

Lemma find_None_not_elem {A} (f : A → bool) (l : list A) x :
  find f l = None → x ∈ l → f x = false.
Proof.
  intros Hnone Hin. apply list_elem_of_In in Hin.
  exact (find_none f l Hnone x Hin).
Qed.

Lemma find_Some_elem {A} (f : A → bool) (l : list A) x :
  find f l = Some x → x ∈ l ∧ f x = true.
Proof.
  intros Hf. apply find_some in Hf as [Hin Hfx].
  split; [by apply list_elem_of_In | done].
Qed.

Lemma find_email_None e db :
  find (Prisma.has_email e) (users db) = None ↔ ¬ user_with_email e db.
Proof.
  split.
  - intros Hnone (u & Hin & He).
    pose proof (find_None_not_elem _ _ _ Hnone Hin) as Hne.
    unfold Prisma.has_email in Hne. rewrite He, String.eqb_refl in Hne.
    discriminate.
  - intros Hno. destruct (find _ _) as [u|] eqn:Hf; [|done].
    apply find_Some_elem in Hf as [Hin He]. exfalso. apply Hno.
    exists u. split; [done|]. by apply String.eqb_eq.
Qed.

(** Under the unique index on [email], the lookup by email returns the one
    user that has it. *)
Lemma find_email_unique_list (l : list User.t) u :
  NoDup (User.email <$> l) → u ∈ l →
  find (Prisma.has_email (User.email u)) l = Some u.
Proof.
  induction l as [|x l IH]; intros Hnd Hin; [by apply elem_of_nil in Hin|].
  simpl in *. apply NoDup_cons in Hnd as [Hx Hnd].
  unfold Prisma.has_email at 1.
  destruct (String.eqb_spec (User.email x) (User.email u)) as [Heq|Hne].
  - apply elem_of_cons in Hin as [->|Hin]; [done|].
    exfalso. apply Hx. rewrite Heq. apply list_elem_of_fmap. by exists u.
  - apply elem_of_cons in Hin as [->|Hin]; [done|]. by apply IH.
Qed.

Lemma find_email_unique db u :
  Db_wf db → u ∈ users db →
  find (Prisma.has_email (User.email u)) (users db) = Some u.
Proof. intros Hwf. apply find_email_unique_list, Hwf. Qed.

(** ** register *)

Section register_login.
Context `{!Bcrypt, !JwtService}.
Import AuthService.

Lemma register_taken (data : RegisterDto) (db : Db) :
  user_with_email (r_email data) db →
  register data db = (Throw (ConflictException "User already exists"), db).
Proof.
  intros Hex. unfold register, bind, Prisma.user_findFirst.
  destruct (find _ _) as [u|] eqn:Hf; [done|].
  by apply find_email_None in Hf.
Qed.

Lemma register_fresh (data : RegisterDto) (db : Db) :
  ¬ user_with_email (r_email data) db →
  register data db =
    (Ok (BareToken (signAsync (payload_of (cuid (idCount db))))),
     mkDb (users db ++
             [Prisma.new_user (idCount db)
                {| Prisma.data_email := r_email data;
                   Prisma.data_password :=
                     Some (bcrypt_hash (r_password data) 12);
                   Prisma.data_username := Some (r_username data);
                   Prisma.data_firstName := Some (r_firstName data);
                   Prisma.data_lastName := Some (r_lastName data) |}])
          (oauthAccounts db) (refreshTokens db) (S (idCount db))).
Proof.
  intros Hno. apply find_email_None in Hno.
  unfold register, bind, Prisma.user_findFirst, Prisma.user_create.
  rewrite Hno. simpl.
  by rewrite (proj2 (existsb_false_find _ _) Hno).
Qed.


(** ** login *)

Lemma login_found (data : LoginDto) (db : Db) u :
  find (Prisma.has_email (l_email data)) (users db) = Some u →
  login data db =
    (if negb (Js.truthy (User.password u))
     then Throw (BadRequestException "password no set")
     else if negb (bcrypt_compare (l_password data)
                     (default "" (User.password u)))
     then Throw (BadRequestException "Email or Password incorrect")
     else Ok (TokenObject (signAsync (payload_of (User.id u)))), db).
Proof.
  intros Hf. unfold login, bind, Prisma.user_findFirst. rewrite Hf.
  destruct (negb (Js.truthy _)); [done|].
  by destruct (negb (bcrypt_compare _ _)).
Qed.

Lemma login_unknown (data : LoginDto) (db : Db) :
  ¬ user_with_email (l_email data) db →
  login data db = (Throw (BadRequestException "User not found!"), db).
Proof.
  intros Hno. apply find_email_None in Hno.
  unfold login, bind, Prisma.user_findFirst. by rewrite Hno.
Qed.

Lemma login_throws (data : LoginDto) (db db' : Db) e :
  login data db = (Throw e, db') → getStatus e = 400 ∧ db' = db.
Proof.
  intros Hl.
  destruct (find (Prisma.has_email (l_email data)) (users db)) as [u|] eqn:Hf.
  - rewrite (login_found _ _ _ Hf) in Hl.
    destruct (negb (Js.truthy _)); [by inversion Hl|].
    destruct (negb (bcrypt_compare _ _)); by inversion Hl.
  - apply find_email_None in Hf. rewrite (login_unknown _ _ Hf) in Hl.
    by inversion Hl.
Qed.

(** C2, as amended: if no User has that email, [login] fails with
    BadRequest "User not found!"; if the User has no stored password it
    fails with BadRequest "password no set"; if the password does not match
    it fails with BadRequest "Email or Password incorrect".  The three
    failures carry different messages and the same status, 400; none
    changes the database. *)
Theorem login_failures_are_bad_requests (data : LoginDto) (db : Db) :
  Db_wf db →
  (¬ user_with_email (l_email data) db →
     login data db = (Throw (BadRequestException "User not found!"), db))
  ∧ (∀ u, u ∈ users db → User.email u = l_email data →
       Js.truthy (User.password u) = false →
       login data db = (Throw (BadRequestException "password no set"), db))
  ∧ (∀ u stored, u ∈ users db → User.email u = l_email data →
       User.password u = Some stored → stored ≠ "" →
       bcrypt_compare (l_password data) stored = false →
       login data db =
         (Throw (BadRequestException "Email or Password incorrect"), db))
  ∧ (∀ e db', login data db = (Throw e, db') → getStatus e = 400 ∧ db' = db).
Proof.
  intros Hwf. split; [|split; [|split]].
  - apply login_unknown.
  - intros u Hin He Hpw.
    rewrite (login_found data db u); [by rewrite Hpw|].
    rewrite <- He. by apply find_email_unique.
  - intros u stored Hin He Hpw Hne Hcmp.
    rewrite (login_found data db u); [|rewrite <- He; by apply find_email_unique].
    rewrite Hpw. simpl. apply String.eqb_neq in Hne. by rewrite Hne, Hcmp.
  - intros e db'. apply login_throws.
Qed.

Lemma login_accepts (data : LoginDto) (db : Db) u stored :
  Db_wf db → u ∈ users db → User.email u = l_email data →
  User.password u = Some stored → stored ≠ "" →
  bcrypt_compare (l_password data) stored = true →
  login data db = (Ok (TokenObject (signAsync (payload_of (User.id u)))), db).
Proof.
  intros Hwf Hin He Hpw Hne Hcmp.
  rewrite (login_found data db u); [|rewrite <- He; by apply find_email_unique].
  rewrite Hpw. simpl. apply String.eqb_neq in Hne. by rewrite Hne, Hcmp.
Qed.

(** C5, as amended: [login] does not consult the two-factor flag.  For
    every User whose two-factor flag is enabled, [login] with the correct
    email and password returns the signed token for that user directly and
    writes nothing; the service has no transitional state. *)
Theorem login_ignores_two_factor_flag (data : LoginDto) (db : Db) u stored :
  Db_wf db → u ∈ users db → User.email u = l_email data →
  User.isTwoFA u = true →
  User.password u = Some stored → stored ≠ "" →
  bcrypt_compare (l_password data) stored = true →
  login data db = (Ok (TokenObject (signAsync (payload_of (User.id u)))), db).
Proof. intros Hwf Hin He _. by apply login_accepts. Qed.

(** C9, what the code does: a successful [login] signs the payload
    [{ userId }] of the user found by email and nothing else, so the token
    carries no [role] claim, and no [id] claim under the name the guard
    reads. *)
Theorem login_signs_user_id_only (data : LoginDto) (db db' : Db) r :
  login data db = (Ok r, db') →
  ∃ u, u ∈ users db ∧ User.email u = l_email data
       ∧ r = TokenObject (signAsync (payload_of (User.id u)))
       ∧ payload_of (User.id u) !! "userId" = Some (User.id u)
       ∧ payload_of (User.id u) !! "role" = None
       ∧ payload_of (User.id u) !! "id" = None.
Proof.
  intros Hl.
  destruct (find (Prisma.has_email (l_email data)) (users db)) as [u|] eqn:Hf.
  - rewrite (login_found _ _ _ Hf) in Hl.
    apply find_Some_elem in Hf as [Hin He]. apply String.eqb_eq in He.
    exists u. destruct (negb (Js.truthy _)); [by inversion Hl|].
    destruct (negb (bcrypt_compare _ _)); [by inversion Hl|].
    inversion Hl; subst. by repeat split.
  - apply find_email_None in Hf. rewrite (login_unknown _ _ Hf) in Hl.
    by inversion Hl.
Qed.

End register_login.

(** ** Accounts and subjects *)

Lemma existsb_elem {A} (f : A → bool) (l : list A) :
  existsb f l = true ↔ ∃ x, x ∈ l ∧ f x = true.
Proof.
  rewrite existsb_exists. split; intros (x & Hin & Hfx); exists x;
    (split; [by apply list_elem_of_In | done]).
Qed.

Lemma owned_provider_spec uid p a :
  Prisma.owned_by uid a && Prisma.is_provider p a = true
  ↔ OAuthAccount.userId a = uid ∧ OAuthAccount.provider a = p.
Proof.
  unfold Prisma.owned_by, Prisma.is_provider.
  rewrite andb_true_iff, String.eqb_eq, bool_decide_eq_true. done.
Qed.

Lemma has_subject_spec p sub a :
  Prisma.has_subject p sub a = true
  ↔ OAuthAccount.provider a = p ∧ OAuthAccount.providerId a = sub.
Proof.
  unfold Prisma.has_subject, Prisma.is_provider.
  rewrite andb_true_iff, String.eqb_eq, bool_decide_eq_true. done.
Qed.

Lemma has_account_existsb uid p db :
  existsb (λ a, Prisma.owned_by uid a && Prisma.is_provider p a)
          (oauthAccounts db) = true
  ↔ has_account uid p db.
Proof.
  rewrite existsb_elem. unfold has_account.
  split; intros (a & Hin & Ha); exists a; (split; [done|]);
    by apply owned_provider_spec.
Qed.

Lemma subject_linked_existsb p sub db :
  existsb (Prisma.has_subject p sub) (oauthAccounts db) = true
  ↔ subject_linked p sub db.
Proof.
  rewrite existsb_elem. unfold subject_linked.
  split; intros (a & Hin & Ha); exists a; (split; [done|]);
    by apply has_subject_spec.
Qed.

(** Looking for the provider among the accounts included with the user is
    looking for an account of that user and provider in the table. *)
Lemma find_included_account uid p (accs : list OAuthAccount.t) :
  is_Some (find (Prisma.is_provider p) (List.filter (Prisma.owned_by uid) accs))
  ↔ existsb (λ a, Prisma.owned_by uid a && Prisma.is_provider p a) accs = true.
Proof.
  induction accs as [|a accs IH]; simpl.
  - split; [intros [? ?]; discriminate | discriminate].
  - destruct (Prisma.owned_by uid a); simpl; [|exact IH].
    destruct (Prisma.is_provider p a); simpl; [|exact IH].
    split; [done | by eexists].
Qed.

Lemma find_included_Some uid p db :
  has_account uid p db →
  is_Some (find (Prisma.is_provider p)
             (List.filter (Prisma.owned_by uid) (oauthAccounts db))).
Proof. intros Ha. by apply find_included_account, has_account_existsb. Qed.

Lemma find_included_None uid p db :
  ¬ has_account uid p db →
  find (Prisma.is_provider p)
       (List.filter (Prisma.owned_by uid) (oauthAccounts db)) = None.
Proof.
  intros Hno. destruct (find _ _) eqn:Hf; [|done].
  exfalso. apply Hno, has_account_existsb, find_included_account.
  rewrite Hf. by eexists.
Qed.

Lemma not_linked_existsb p sub db :
  ¬ subject_linked p sub db →
  existsb (Prisma.has_subject p sub) (oauthAccounts db) = false.
Proof.
  intros Hno. apply not_true_is_false. by rewrite subject_linked_existsb.
Qed.

Lemma no_account_existsb uid p db :
  ¬ has_account uid p db →
  existsb (λ a, Prisma.owned_by uid a && Prisma.is_provider p a)
          (oauthAccounts db) = false.
Proof.
  intros Hno. apply not_true_is_false. by rewrite has_account_existsb.
Qed.

Lemma user_id_existsb uid db :
  (∃ u, u ∈ users db ∧ User.id u = uid) →
  existsb (λ u, String.eqb (User.id u) uid) (users db) = true.
Proof.
  intros (u & Hin & Hid). apply existsb_elem. exists u.
  split; [done|]. by apply String.eqb_eq.
Qed.

(** ** Identifiers *)

Lemma cuid_inj n m : cuid n = cuid m → n = m.
Proof.
  unfold cuid. intros Heq. apply (inj (String.app "c")) in Heq.
  by apply (inj pretty) in Heq.
Qed.

Lemma cuid_not_drawn n : cuid n ∉ cuid <$> seq 0 n.
Proof.
  intros Hin. apply list_elem_of_fmap in Hin as (m & Heq & Hm).
  apply cuid_inj in Heq as <-. apply elem_of_seq in Hm. lia.
Qed.

(** The identifier about to be drawn belongs to no user, hence owns no
    account. *)
Lemma next_id_not_user db :
  Db_wf db → cuid (idCount db) ∉ User.id <$> users db.
Proof.
  intros Hwf Hin. apply list_elem_of_fmap in Hin as (u & Heq & Hu).
  pose proof (wf_drawn db Hwf) as Hd. rewrite Forall_forall in Hd.
  specialize (Hd u Hu). rewrite <- Heq in Hd. by apply cuid_not_drawn in Hd.
Qed.

Lemma next_id_no_account db p :
  Db_wf db → ¬ has_account (cuid (idCount db)) p db.
Proof.
  intros Hwf (a & Hin & Hid & _).
  pose proof (wf_owner db Hwf) as Ho. rewrite Forall_forall in Ho.
  specialize (Ho a Hin). rewrite Hid in Ho. by apply next_id_not_user in Ho.
Qed.

(** ** Counting rows under a unique key *)

Lemma length_filter_key {A K} (f : A → K) (P : A → bool) (k : K)
    (l : list A) :
  (∀ y, P y = true ↔ f y = k) →
  NoDup (f <$> l) → (∃ x, x ∈ l ∧ f x = k) →
  length (List.filter P l) = 1.
Proof.
  intros HP. induction l as [|y l IH]; intros Hnd (x & Hin & Hx).
  - by apply elem_of_nil in Hin.
  - simpl in *. apply NoDup_cons in Hnd as [Hy Hnd].
    destruct (P y) eqn:Hpy.
    + simpl. f_equal. apply HP in Hpy.
      destruct (List.filter P l) as [|z zs] eqn:Hfl; [done|]. exfalso.
      assert (z ∈ List.filter P l) as Hz by (rewrite Hfl; left).
      apply list_elem_of_In, filter_In in Hz as [Hz Hpz].
      apply HP in Hpz. apply Hy. rewrite Hpy, <- Hpz.
      apply list_elem_of_fmap. exists z. split; [done|]. by apply list_elem_of_In.
    + apply IH; [done|]. exists x. split; [|done].
      apply elem_of_cons in Hin as [->|Hin]; [|done].
      apply HP in Hx. congruence.
Qed.

Lemma length_filter_none {A} (P : A → bool) (l : list A) :
  existsb P l = false → List.filter P l = [].
Proof.
  induction l as [|y l IH]; simpl; [done|].
  destruct (P y); simpl; [discriminate | exact IH].
Qed.

Lemma count_users_one db u :
  Db_wf db → u ∈ users db → count_users (User.email u) db = 1.
Proof.
  intros Hwf Hin. unfold count_users.
  apply (length_filter_key User.email _ (User.email u)).
  - intros y. unfold Prisma.has_email. apply String.eqb_eq.
  - apply Hwf.
  - by exists u.
Qed.

Lemma count_accounts_one db uid p :
  Db_wf db → has_account uid p db → count_accounts uid p db = 1.
Proof.
  intros Hwf (a & Hin & Hid & Hp). unfold count_accounts.
  apply (length_filter_key
           (λ a, (OAuthAccount.userId a, OAuthAccount.provider a)) _ (uid, p)).
  - intros y. rewrite owned_provider_spec. split; [intros [-> ->]; done|].
    intros [= -> ->]. done.
  - apply Hwf.
  - exists a. split; [done|]. by rewrite Hid, Hp.
Qed.

Lemma count_accounts_zero db uid p :
  ¬ has_account uid p db → count_accounts uid p db = 0.
Proof.
  intros Hno. unfold count_accounts.
  by rewrite (length_filter_none _ _ (no_account_existsb _ _ _ Hno)).
Qed.

(** ** OAuthGoogleCallback *)

Section oauth.
Context `{!JwtService}.
Import AuthService.

(** The user exists and has a Google account: nothing is written. *)
Lemma oauth_linked (g : GoogleUser) (db : Db) u :
  find (Prisma.has_email (g_email g)) (users db) = Some u →
  has_account (User.id u) Google db →
  OAuthGoogleCallback g db = (token_for (User.id u), db).
Proof.
  intros Hf Hacc.
  unfold OAuthGoogleCallback, bind, Prisma.user_findFirst_include.
  rewrite Hf. destruct (find_included_Some _ _ _ Hacc) as [a Ha].
  by rewrite Ha.
Qed.

(** The user exists, has no Google account, and the subject is free: one
    account row is appended. *)
Lemma oauth_link (g : GoogleUser) (db : Db) u :
  find (Prisma.has_email (g_email g)) (users db) = Some u →
  ¬ has_account (User.id u) Google db →
  ¬ subject_linked Google (sub g) db →
  OAuthGoogleCallback g db =
    (token_for (User.id u),
     mkDb (users db)
          (oauthAccounts db ++
             [OAuthAccount.mk (cuid (idCount db)) (User.id u) Google (sub g)])
          (refreshTokens db) (S (idCount db))).
Proof.
  intros Hf Hacc Hsub.
  unfold OAuthGoogleCallback, bind, Prisma.user_findFirst_include.
  rewrite Hf, (find_included_None _ _ _ Hacc).
  unfold Prisma.oAuthAccount_create.
  rewrite user_id_existsb, (not_linked_existsb _ _ _ Hsub),
    (no_account_existsb _ _ _ Hacc); [done|].
  exists u. by apply find_Some_elem in Hf as [? _].
Qed.

(** The user exists, has no Google account, and the subject is another
    account's: the storage layer rejects the write. *)
Lemma oauth_link_rejected (g : GoogleUser) (db : Db) u :
  find (Prisma.has_email (g_email g)) (users db) = Some u →
  ¬ has_account (User.id u) Google db →
  subject_linked Google (sub g) db →
  OAuthGoogleCallback g db =
    (Throw (PrismaClientKnownRequestError "P2002"
              "oauthaccount_provider_providerId_key"), db).
Proof.
  intros Hf Hacc Hsub.
  unfold OAuthGoogleCallback, bind, Prisma.user_findFirst_include.
  rewrite Hf, (find_included_None _ _ _ Hacc).
  unfold Prisma.oAuthAccount_create.
  rewrite user_id_existsb, (proj2 (subject_linked_existsb _ _ _) Hsub); [done|].
  exists u. by apply find_Some_elem in Hf as [? _].
Qed.

Lemma user_create_fresh (d : Prisma.UserCreateInput) (db : Db) :
  ¬ user_with_email (Prisma.data_email d) db →
  Prisma.user_create d db =
    (Ok (Prisma.new_user (idCount db) d),
     mkDb (users db ++ [Prisma.new_user (idCount db) d]) (oauthAccounts db)
          (refreshTokens db) (S (idCount db))).
Proof.
  intros Hno. apply find_email_None, existsb_false_find in Hno.
  unfold Prisma.user_create. by rewrite Hno.
Qed.

Lemma account_create_new_user (d : Prisma.UserCreateInput) (sub : string)
    (db : Db) :
  Db_wf db → ¬ subject_linked Google sub db →
  let u := Prisma.new_user (idCount db) d in
  let db1 := mkDb (users db ++ [u]) (oauthAccounts db) (refreshTokens db)
                  (S (idCount db)) in
  Prisma.oAuthAccount_create Google sub (User.id u) db1 =
    (Ok (OAuthAccount.mk (cuid (S (idCount db))) (User.id u) Google sub),
     mkDb (users db ++ [u])
          (oauthAccounts db ++
             [OAuthAccount.mk (cuid (S (idCount db))) (User.id u) Google sub])
          (refreshTokens db) (S (S (idCount db)))).
Proof.
  intros Hwf Hsub u db1. unfold Prisma.oAuthAccount_create. simpl.
  rewrite existsb_app. simpl. rewrite String.eqb_refl, orb_true_r. simpl.
  rewrite (not_linked_existsb _ _ _ Hsub).
  by rewrite (no_account_existsb _ _ _ (next_id_no_account db Google Hwf)).
Qed.

(** No user has the email and the subject is free: a user row, then an
    account row. *)
Lemma oauth_new (g : GoogleUser) (db : Db) :
  Db_wf db →
  ¬ user_with_email (g_email g) db →
  ¬ subject_linked Google (sub g) db →
  let u := Prisma.new_user (idCount db) (google_user_data g) in
  OAuthGoogleCallback g db =
    (token_for (User.id u),
     mkDb (users db ++ [u])
          (oauthAccounts db ++
             [OAuthAccount.mk (cuid (S (idCount db))) (User.id u) Google (sub g)])
          (refreshTokens db) (S (S (idCount db)))).
Proof.
  intros Hwf Hno Hsub u.
  unfold OAuthGoogleCallback, bind at 1, Prisma.user_findFirst_include.
  rewrite (proj2 (find_email_None _ _) Hno).
  unfold bind at 1. fold (google_user_data g).
  rewrite (user_create_fresh (google_user_data g) db Hno).
  unfold bind.
  by rewrite (account_create_new_user (google_user_data g) (sub g) db Hwf Hsub).
Qed.

(** No user has the email but the subject is another account's: the user
    row stays, the account row is rejected. *)
Lemma oauth_new_rejected (g : GoogleUser) (db : Db) :
  ¬ user_with_email (g_email g) db →
  subject_linked Google (sub g) db →
  OAuthGoogleCallback g db =
    (Throw (PrismaClientKnownRequestError "P2002"
              "oauthaccount_provider_providerId_key"),
     mkDb (users db ++ [Prisma.new_user (idCount db) (google_user_data g)])
          (oauthAccounts db) (refreshTokens db) (S (idCount db))).
Proof.
  intros Hno Hsub.
  unfold OAuthGoogleCallback, bind at 1, Prisma.user_findFirst_include.
  rewrite (proj2 (find_email_None _ _) Hno).
  unfold bind at 1. fold (google_user_data g).
  rewrite (user_create_fresh (google_user_data g) db Hno).
  unfold bind, Prisma.oAuthAccount_create. simpl.
  rewrite existsb_app. simpl. rewrite String.eqb_refl, orb_true_r. simpl.
  by rewrite (proj2 (subject_linked_existsb _ _ _) Hsub).
Qed.

End oauth.

Lemma has_account_dec uid p db : has_account uid p db ∨ ¬ has_account uid p db.
Proof.
  destruct (existsb (λ a, Prisma.owned_by uid a && Prisma.is_provider p a)
              (oauthAccounts db)) eqn:E.
  - left. by apply has_account_existsb.
  - right. rewrite <- has_account_existsb, E. discriminate.
Qed.

Lemma subject_linked_dec p sub db :
  subject_linked p sub db ∨ ¬ subject_linked p sub db.
Proof.
  destruct (existsb (Prisma.has_subject p sub) (oauthAccounts db)) eqn:E.
  - left. by apply subject_linked_existsb.
  - right. rewrite <- subject_linked_existsb, E. discriminate.
Qed.

Lemma user_with_email_dec e db : user_with_email e db ∨ ¬ user_with_email e db.
Proof.
  destruct (find (Prisma.has_email e) (users db)) as [u|] eqn:Hf.
  - left. apply find_Some_elem in Hf as [Hin He]. exists u.
    split; [done|]. by apply String.eqb_eq.
  - right. by apply find_email_None.
Qed.

Section oauth_claims.
Context `{!JwtService}.
Import AuthService.

(** A second callback with the same identity, after one that linked or
    created the account, finds it and writes nothing. *)
Lemma oauth_again (g : GoogleUser) (db : Db) u a :
  find (Prisma.has_email (g_email g)) (users db) = Some u →
  OAuthAccount.userId a = User.id u → OAuthAccount.provider a = Google →
  let db1 := mkDb (users db) (oauthAccounts db ++ [a]) (refreshTokens db)
                  (S (idCount db)) in
  OAuthGoogleCallback g db1 = (token_for (User.id u), db1).
Proof.
  intros Hf Hid Hp db1. apply oauth_linked; [done|].
  exists a. split; [|done]. simpl. apply elem_of_app. right. by left.
Qed.

Lemma count_accounts_snoc uid p db a n :
  OAuthAccount.userId a = uid → OAuthAccount.provider a = p →
  count_accounts uid p
    (mkDb (users db) (oauthAccounts db ++ [a]) (refreshTokens db) n)
  = S (count_accounts uid p db).
Proof.
  intros Hid Hp. unfold count_accounts. simpl.
  rewrite List.filter_app, length_app. simpl.
  rewrite (proj2 (owned_provider_spec uid p a)); [simpl; lia | done].
Qed.

(** C3, as amended: when a User with the asserted email exists, has no
    Google account, and the subject id is not already the providerId of a
    Google account, the callback appends exactly one OAuthAccount row, for
    Google and that subject, owned by the existing User; when the User
    already has a Google account the callback writes nothing; and whenever a
    callback succeeds, running it again with the same subject id and email,
    at whatever later instant, succeeds with no write and again issues a
    token for that same User (signed anew: the string need not be the one
    issued before), leaving exactly one User with that email and exactly one
    Google account of that User. *)
Theorem oauth_link_is_idempotent (g : GoogleUser) (db : Db) u :
  Db_wf db → u ∈ users db → User.email u = g_email g →
  (¬ has_account (User.id u) Google db →
   ¬ subject_linked Google (sub g) db →
     OAuthGoogleCallback g db =
       (Ok (TokenObject (signAsync (payload_of (User.id u)))),
        mkDb (users db)
             (oauthAccounts db ++
                [OAuthAccount.mk (cuid (idCount db)) (User.id u) Google (sub g)])
             (refreshTokens db) (S (idCount db))))
  ∧ (has_account (User.id u) Google db →
       OAuthGoogleCallback g db =
         (Ok (TokenObject (signAsync (payload_of (User.id u)))), db))
  ∧ (∀ r db1, OAuthGoogleCallback g db = (Ok r, db1) →
       r = TokenObject (signAsync (payload_of (User.id u)))
       ∧ (∀ later : JwtService,
            @OAuthGoogleCallback later g db1 =
              (Ok (TokenObject (@signAsync later (payload_of (User.id u)))),
               db1))
       ∧ count_users (g_email g) db1 = 1
       ∧ count_accounts (User.id u) Google db1 = 1).
Proof.
  intros Hwf Hin He.
  pose proof (find_email_unique db u Hwf Hin) as Hf. rewrite He in Hf.
  split; [|split].
  - intros Hacc Hsub. by apply oauth_link.
  - intros Hacc. by apply oauth_linked.
  - intros r db1 Hcall.
    destruct (has_account_dec (User.id u) Google db) as [Hacc|Hacc].
    + rewrite (oauth_linked g db u Hf Hacc) in Hcall.
      unfold token_for in Hcall. inversion Hcall; subst.
      split; [done|]. split; [|split].
      * intros later. by apply (@oauth_linked later).
      * rewrite <- He. by apply count_users_one.
      * by apply count_accounts_one.
    + destruct (subject_linked_dec Google (sub g) db) as [Hsub|Hsub].
      { by rewrite (oauth_link_rejected g db u Hf Hacc Hsub) in Hcall. }
      rewrite (oauth_link g db u Hf Hacc Hsub) in Hcall.
      unfold token_for in Hcall. inversion Hcall; subst. clear Hcall.
      split; [done|]. split; [|split].
      * intros later. apply (@oauth_linked later); [done|].
        eexists. split; [simpl; apply elem_of_app; right; by left | done].
      * rewrite <- He.
        change (count_users (User.email u) db = 1). by apply count_users_one.
      * rewrite count_accounts_snoc by done.
        by rewrite count_accounts_zero.
Qed.

(** The same from a database without the user: the first callback creates
    the User and the account, the second, at whatever later instant, writes
    nothing and issues a token for the User the first created. *)
Lemma oauth_twice_from_new (g : GoogleUser) (db db1 : Db) r :
  Db_wf db → ¬ user_with_email (g_email g) db →
  OAuthGoogleCallback g db = (Ok r, db1) →
  (∀ later : JwtService,
     @OAuthGoogleCallback later g db1 =
       (Ok (TokenObject (@signAsync later (payload_of (cuid (idCount db))))),
        db1))
  ∧ count_users (g_email g) db1 = 1
  ∧ count_accounts (cuid (idCount db)) Google db1 = 1.
Proof.
  intros Hwf Hno Hcall.
  destruct (subject_linked_dec Google (sub g) db) as [Hsub|Hsub].
  { by rewrite (oauth_new_rejected g db Hno Hsub) in Hcall. }
  rewrite (oauth_new g db Hwf Hno Hsub) in Hcall.
  unfold token_for in Hcall. inversion Hcall; subst. clear Hcall.
  set (u := Prisma.new_user (idCount db) (google_user_data g)).
  assert (find (Prisma.has_email (g_email g)) (users db ++ [u]) = Some u)
    as Hf.
  { apply find_email_None in Hno. clear -Hno.
    induction (users db) as [|x l IH]; simpl in *.
    - unfold Prisma.has_email. simpl. by rewrite String.eqb_refl.
    - destruct (Prisma.has_email (g_email g) x); [done | by apply IH]. }
  split; [|split].
  - intros later. apply (@oauth_linked later g _ u); [exact Hf|].
    eexists. split; [simpl; apply elem_of_app; right; by left | done].
  - unfold count_users. simpl. rewrite List.filter_app, length_app. simpl.
    apply find_email_None, existsb_false_find in Hno.
    rewrite (length_filter_none _ _ Hno). simpl.
    unfold Prisma.has_email. simpl. by rewrite String.eqb_refl.
  - pose proof (count_accounts_snoc (cuid (idCount db)) Google
                  (mkDb (users db ++ [u]) (oauthAccounts db)
                        (refreshTokens db) (S (idCount db)))
                  (OAuthAccount.mk (cuid (S (idCount db))) (User.id u)
                     Google (sub g)) (S (S (idCount db)))) as Hc.
    simpl in Hc. rewrite Hc by done.
    f_equal. unfold count_accounts. simpl.
    rewrite length_filter_none; [done|].
    by apply no_account_existsb, next_id_no_account.
Qed.


(** C7, as amended: the callback does not consult the active flag.  When
    the asserted email belongs to a deactivated User who has a Google
    account, or whose account can be linked because the subject id is free,
    the callback issues the token for that User as it does for an active
    one. *)
Theorem oauth_ignores_active_flag (g : GoogleUser) (db : Db) u :
  Db_wf db → u ∈ users db → User.email u = g_email g →
  User.isActive u = false →
  has_account (User.id u) Google db ∨ ¬ subject_linked Google (sub g) db →
  ∃ db', OAuthGoogleCallback g db =
           (Ok (TokenObject (signAsync (payload_of (User.id u)))), db').
Proof.
  intros Hwf Hin He _ Hcase.
  pose proof (find_email_unique db u Hwf Hin) as Hf. rewrite He in Hf.
  destruct (has_account_dec (User.id u) Google db) as [Hacc|Hacc].
  - eexists. by apply oauth_linked.
  - destruct Hcase as [?|Hsub]; [done|]. eexists. by apply oauth_link.
Qed.

End oauth_claims.

(** ** The refresh-token table under the implemented operations *)

Section refresh_untouched.
Context `{!Bcrypt, !JwtService}.
Import AuthService.

Lemma ret_keeps {A} (a : A) : keeps_refresh_tokens (ret a).
Proof. done. Qed.

Lemma throw_keeps {A} e : keeps_refresh_tokens (@throw A e).
Proof. done. Qed.

Lemma bind_keeps {A B} (m : M A) (k : A → M B) :
  keeps_refresh_tokens m → (∀ a, keeps_refresh_tokens (k a)) →
  keeps_refresh_tokens (bind m k).
Proof.
  intros Hm Hk db. unfold bind. specialize (Hm db).
  destruct (m db) as [[a|e] db']; simpl in *; [|done].
  by rewrite Hk.
Qed.

Lemma user_findFirst_keeps e : keeps_refresh_tokens (Prisma.user_findFirst e).
Proof. done. Qed.

Lemma user_findFirst_include_keeps e :
  keeps_refresh_tokens (Prisma.user_findFirst_include e).
Proof. done. Qed.

Lemma user_create_keeps d : keeps_refresh_tokens (Prisma.user_create d).
Proof. intros db. unfold Prisma.user_create. by destruct (existsb _ _). Qed.

Lemma oAuthAccount_create_keeps p sub uid :
  keeps_refresh_tokens (Prisma.oAuthAccount_create p sub uid).
Proof.
  intros db. unfold Prisma.oAuthAccount_create.
  destruct (existsb (Prisma.has_subject p sub) _); [done|].
  destruct (existsb _ (oauthAccounts db)); [done|]. by destruct (negb _).
Qed.

Lemma register_keeps data : keeps_refresh_tokens (register data).
Proof.
  apply bind_keeps; [apply user_findFirst_keeps|].
  intros [u|]; [apply throw_keeps|].
  apply bind_keeps; [apply user_create_keeps|]. intros u. apply ret_keeps.
Qed.

Lemma login_keeps data : keeps_refresh_tokens (login data).
Proof.
  apply bind_keeps; [apply user_findFirst_keeps|].
  intros [u|]; [|apply throw_keeps]. cbv beta iota zeta.
  destruct (negb (Js.truthy _)); [apply throw_keeps|].
  destruct (negb (bcrypt_compare _ _)); [apply throw_keeps | apply ret_keeps].
Qed.

Lemma OAuthGoogleCallback_keeps g : keeps_refresh_tokens (OAuthGoogleCallback g).
Proof.
  apply bind_keeps; [apply user_findFirst_include_keeps|].
  intros [[u accounts]|]; cbv beta iota zeta.
  - apply bind_keeps; [|intros; apply ret_keeps].
    destruct (find _ _); [apply ret_keeps|].
    apply bind_keeps; [apply oAuthAccount_create_keeps|].
    intros; apply ret_keeps.
  - apply bind_keeps; [apply user_create_keeps|]. intros u.
    apply bind_keeps; [apply oAuthAccount_create_keeps|].
    intros; apply ret_keeps.
Qed.

Lemma no_pair_shape r : ¬ token_pair_shape r.
Proof.
  intros (Ha & _ & _). destruct r; simpl in Ha.
  - by apply elem_of_nil in Ha.
  - apply list_elem_of_singleton in Ha. discriminate.
Qed.

Lemma register_single_jwt data db r db' :
  register data db = (Ok r, db') → single_jwt r.
Proof.
  intros Hr. split; [|apply no_pair_shape].
  destruct (user_with_email_dec (r_email data) db) as [Hex|Hno].
  - by rewrite (register_taken _ _ Hex) in Hr.
  - rewrite (register_fresh _ _ Hno) in Hr. inversion Hr; subst.
    by eexists.
Qed.

Lemma login_single_jwt data db r db' :
  login data db = (Ok r, db') → single_jwt r.
Proof.
  intros Hl. split; [|apply no_pair_shape].
  apply login_signs_user_id_only in Hl as (u & _ & _ & -> & _).
  by eexists.
Qed.

Lemma OAuthGoogleCallback_single_jwt g db r db' :
  OAuthGoogleCallback g db = (Ok r, db') → single_jwt r.
Proof.
  intros Hc. split; [|apply no_pair_shape].
  unfold OAuthGoogleCallback, bind, Prisma.user_findFirst_include in Hc.
  destruct (find _ (users db)) as [u|].
  - destruct (find _ _).
    + inversion Hc; subst. by eexists.
    + destruct (Prisma.oAuthAccount_create _ _ _ _) as [[a|e] db1];
        inversion Hc; subst. by eexists.
  - destruct (Prisma.user_create _ _) as [[u|e] db1]; [|by inversion Hc].
    destruct (Prisma.oAuthAccount_create _ _ _ _) as [[a|e] db2];
      inversion Hc; subst. by eexists.
Qed.

(** On bodies of the declared type: none of register, login and
    OAuthGoogleCallback creates, updates or deletes a RefreshToken row, and
    every successful operation returns a single signed token, not an
    access/refresh pair.  (What register does with a body that carries more
    is [register_creates_nested_refresh_token].) *)
Theorem auth_operations_leave_refresh_tokens (db : Db)
    (rd : RegisterDto) (ld : LoginDto) (g : GoogleUser) :
  refreshTokens (snd (register rd db)) = refreshTokens db
  ∧ refreshTokens (snd (login ld db)) = refreshTokens db
  ∧ refreshTokens (snd (OAuthGoogleCallback g db)) = refreshTokens db
  ∧ (∀ r db', register rd db = (Ok r, db')
              ∨ login ld db = (Ok r, db')
              ∨ OAuthGoogleCallback g db = (Ok r, db') →
       single_jwt r).
Proof.
  split; [apply register_keeps|].
  split; [apply login_keeps|].
  split; [apply OAuthGoogleCallback_keeps|].
  intros r db' [Hr|[Hl|Hc]].
  - by eapply register_single_jwt.
  - by eapply login_single_jwt.
  - by eapply OAuthGoogleCallback_single_jwt.
Qed.

End refresh_untouched.

(** ** AuthGuard *)

Section guard_claims.
Context `{!JwtService}.
Import AuthGuard.

(** Without a header under the name the guard reads, the token is the
    cookie's. *)
Lemma canActivate_cookie (request : Request) c :
  headers request !! "authoriztion" = None →
  cookies request = Some c →
  canActivate request =
    match verify (c !! "token") with
    | Some payload =>
        Ok {| headers := headers request; cookies := cookies request;
              user := Some {| user_id := payload !! "id";
                              user_role := payload !! "role" |} |}
    | None => Throw (ForbiddenException "Token invalid")
    end.
Proof.
  intros Hh Hc. unfold canActivate, header_token. by rewrite Hh, Hc.
Qed.

(** C8, what the code does: the guard reads the header [authoriztion], so
    a request that carries a valid bearer token in its [authorization]
    header, and no token cookie, is refused with Forbidden. *)
Theorem canActivate_ignores_authorization_header (request : Request)
    bearer payload c :
  headers request !! "authorization" = Some ("Bearer " +:+ bearer) →
  verifyAsync bearer = Some payload →
  headers request !! "authoriztion" = None →
  cookies request = Some c → c !! "token" = None →
  canActivate request = Throw (ForbiddenException "Token invalid").
Proof.
  intros _ _ Hh Hc Ht. rewrite (canActivate_cookie request c Hh Hc).
  by rewrite Ht.
Qed.

(** Where no cookie parser ran, the same request fails with a TypeError
    before the guard's [try], a 500 for the client. *)
Lemma canActivate_without_cookies (request : Request) :
  headers request !! "authoriztion" = None →
  cookies request = None →
  ∃ e, canActivate request = Throw e ∧ getStatus e = 500.
Proof.
  intros Hh Hc. unfold canActivate, header_token. rewrite Hh, Hc.
  by eexists.
Qed.

End guard_claims.

(** ** Refresh-token rotation (the specification's Token Issuer) *)

Section rotation.
Context `{!JwtService}.
Import TokenIssuer.

Lemma randomToken_inj n m : randomToken n = randomToken m → n = m.
Proof.
  unfold randomToken. intros Heq. apply (inj (String.app "r")) in Heq.
  by apply (inj pretty) in Heq.
Qed.

(** The string about to be drawn is the token of no record. *)
Lemma next_token_fresh db :
  wf db → existsb (has_token (randomToken (idCount db))) (refreshTokens db)
          = false.
Proof.
  intros [_ Hdrawn]. apply not_true_is_false. rewrite existsb_elem.
  intros (r & Hin & Hr). apply String.eqb_eq in Hr.
  rewrite Forall_forall in Hdrawn. specialize (Hdrawn r Hin).
  rewrite Hr in Hdrawn.
  apply list_elem_of_fmap in Hdrawn as (m & Heq & Hm).
  apply randomToken_inj in Heq as <-. apply elem_of_seq in Hm. lia.
Qed.

Lemma revoke_removes t db :
  existsb (has_token t) (refreshTokens (revoke t db)) = false.
Proof.
  unfold revoke. simpl. induction (refreshTokens db) as [|r l IH]; [done|].
  simpl. destruct (has_token t r) eqn:E; simpl; [done|]. by rewrite E.
Qed.

Lemma revoke_keeps_others t t' db :
  existsb (has_token t') (refreshTokens db) = false →
  existsb (has_token t') (refreshTokens (revoke t db)) = false.
Proof.
  unfold revoke. simpl. induction (refreshTokens db) as [|r l IH]; [done|].
  simpl. intros [Hr Hl]%orb_false_elim.
  destruct (has_token t r); simpl; [by apply IH|]. rewrite Hr. by apply IH.
Qed.

Lemma find_snoc_new {A} (f : A → bool) (l : list A) x :
  existsb f l = false → f x = true → find f (l ++ [x]) = Some x.
Proof.
  induction l as [|y l IH]; simpl; intros Hl Hx; [by rewrite Hx|].
  apply orb_false_elim in Hl as [Hy Hl]. rewrite Hy. by apply IH.
Qed.

Lemma find_snoc_other {A} (f : A → bool) (l : list A) x :
  existsb f l = false → f x = false → find f (l ++ [x]) = None.
Proof.
  intros Hl Hx. apply existsb_false_find. rewrite existsb_app. simpl.
  by rewrite Hl, Hx.
Qed.

(** What an accepted rotation does: the presented record exists and has
    not expired; it is deleted and one record with a fresh token, seven days
    to live and the same owner is appended. *)
Lemma rotate_accepted db now tokenA pair db1 :
  rotateRefreshToken now tokenA db = (inr pair, db1) →
  ∃ r u,
    find (has_token tokenA) (refreshTokens db) = Some r
    ∧ (now < RefreshToken.expiresAt r)%N
    ∧ find (has_id (RefreshToken.userId r)) (users db) = Some u
    ∧ refreshToken pair = randomToken (idCount db)
    ∧ accessToken pair = issueAccessToken (User.id u) (User.role u)
    ∧ db1 = mkDb (users db) (oauthAccounts db)
              (refreshTokens (revoke tokenA db) ++
                 [RefreshToken.mk (cuid (idCount db))
                    (randomToken (idCount db)) (User.id u)
                    (now + refreshTtl)%N])
              (S (idCount db)).
Proof.
  unfold rotateRefreshToken. intros Hrot.
  destruct (find (has_token tokenA) _) as [r|] eqn:Hf; [|by inversion Hrot].
  destruct (N.leb_spec (RefreshToken.expiresAt r) now) as [Hexp|Hlive];
    [by inversion Hrot|].
  destruct (find (has_id _) _) as [u|] eqn:Hu; [|by inversion Hrot].
  simpl in Hrot. inversion Hrot; subst. by exists r, u.
Qed.

Lemma rotate_live db now tokenA r :
  wf db →
  find (has_token tokenA) (refreshTokens db) = Some r →
  (now < RefreshToken.expiresAt r)%N →
  ∃ pair db1, rotateRefreshToken now tokenA db = (inr pair, db1).
Proof.
  intros [Hown _] Hf Hlive. unfold rotateRefreshToken. rewrite Hf.
  destruct (N.leb_spec (RefreshToken.expiresAt r) now) as [Hexp|_]; [lia|].
  apply find_Some_elem in Hf as [Hin _].
  rewrite Forall_forall in Hown. specialize (Hown r Hin).
  apply list_elem_of_fmap in Hown as (u & Hid & Hu).
  destruct (find (has_id _) _) as [u'|] eqn:Hfu.
  - simpl. by eexists _, _.
  - pose proof (find_None_not_elem _ _ _ Hfu Hu) as Hne.
    unfold has_id in Hne. by rewrite Hid, String.eqb_refl in Hne.
Qed.

(** C6: a refresh token is single-use.  When [refresh] accepts tokenA and
    yields a pair with tokenB, the old record is gone from the table, every
    later [refresh] of tokenA fails with InvalidToken, and a [refresh] of
    tokenB before its expiry succeeds; [refresh] of an absent or of an
    expired token fails with InvalidToken, and of a present, unexpired one
    is accepted. *)
Theorem refresh_tokens_are_single_use (db : Db) (now : N) (tokenA : string) :
  wf db →
  (∀ pair db1, refresh now tokenA db = (inr pair, db1) →
     find (has_token tokenA) (refreshTokens db1) = None
     ∧ (∀ later, refresh later tokenA db1 = (inl InvalidToken, db1))
     ∧ (∀ later, (later < now + refreshTtl)%N →
          ∃ pair' db2,
            refresh later (refreshToken pair) db1 = (inr pair', db2)))
  ∧ (find (has_token tokenA) (refreshTokens db) = None →
       refresh now tokenA db = (inl InvalidToken, db))
  ∧ (∀ r, find (has_token tokenA) (refreshTokens db) = Some r →
       (RefreshToken.expiresAt r ≤ now)%N →
       fst (refresh now tokenA db) = inl InvalidToken)
  ∧ (∀ r, find (has_token tokenA) (refreshTokens db) = Some r →
       (now < RefreshToken.expiresAt r)%N →
       ∃ pair db1, refresh now tokenA db = (inr pair, db1)).
Proof.
  intros Hwf. unfold refresh. split; [|split; [|split]].
  - intros pair db1 Hrot.
    apply rotate_accepted in Hrot as (r & u & Hf & Hlive & Hu & HB & _ & ->).
    pose proof (next_token_fresh db Hwf) as Hfresh.
    assert (has_token tokenA
              (RefreshToken.mk (cuid (idCount db)) (randomToken (idCount db))
                 (User.id u) (now + refreshTtl)%N) = false) as Hne.
    { unfold has_token. cbn [RefreshToken.token].
      apply String.eqb_neq. intros Heq.
      apply find_Some_elem in Hf as [Hin Hr].
      assert (existsb (has_token (randomToken (idCount db)))
                      (refreshTokens db) = true) as Hex; [|congruence].
      apply existsb_elem. exists r. split; [done|]. by rewrite Heq. }
    assert (find (has_token tokenA)
              (refreshTokens (revoke tokenA db) ++
                 [RefreshToken.mk (cuid (idCount db))
                    (randomToken (idCount db)) (User.id u)
                    (now + refreshTtl)%N]) = None) as Hgone.
    { apply find_snoc_other; [apply revoke_removes | done]. }
    split; [done|]. split.
    + intros later. unfold rotateRefreshToken. cbn [refreshTokens].
      by rewrite Hgone.
    + intros later Hlater. rewrite HB. unfold rotateRefreshToken.
      cbn [refreshTokens].
      rewrite (find_snoc_new _ _ _ (revoke_keeps_others _ _ _ Hfresh));
        [|unfold has_token; cbn [RefreshToken.token]; apply String.eqb_refl].
      cbn [RefreshToken.expiresAt RefreshToken.userId users].
      destruct (N.leb_spec (now + refreshTtl) later) as [Hexp|_]; [lia|].
      apply find_Some_elem in Hu as [Hin Hid].
      destruct (find (has_id (User.id u)) (users db)) as [u'|] eqn:Hfu.
      * by eexists _, _.
      * pose proof (find_None_not_elem _ _ _ Hfu Hin) as Hno.
        unfold has_id in Hno. by rewrite String.eqb_refl in Hno.
  - intros Hf. unfold rotateRefreshToken. by rewrite Hf.
  - intros r Hf Hexp. unfold rotateRefreshToken. rewrite Hf.
    by destruct (N.leb_spec (RefreshToken.expiresAt r) now) as [_|Hlive];
      [|lia].
  - intros r. by apply rotate_live.
Qed.

End rotation.

(** ** The storage invariants are kept *)

Lemma drawn_mono n x : x ∈ cuid <$> seq 0 n → x ∈ cuid <$> seq 0 (S n).
Proof.
  intros (m & -> & Hm)%list_elem_of_fmap. apply list_elem_of_fmap.
  exists m. split; [done|]. apply elem_of_seq. apply elem_of_seq in Hm. lia.
Qed.

Lemma drawn_next n : cuid n ∈ cuid <$> seq 0 (S n).
Proof.
  apply list_elem_of_fmap. exists n. split; [done|]. apply elem_of_seq. lia.
Qed.

Lemma NoDup_snoc_fmap {A K} (f : A → K) (l : list A) x :
  NoDup (f <$> l) → f x ∉ f <$> l → NoDup (f <$> (l ++ [x])).
Proof.
  intros Hnd Hx. rewrite fmap_app. apply NoDup_app. split; [done|].
  split; [|apply NoDup_singleton].
  intros k Hk Hk'. apply list_elem_of_singleton in Hk'. by subst.
Qed.

Lemma user_create_wf (d : Prisma.UserCreateInput) (db db' : Db) u :
  Db_wf db → Prisma.user_create d db = (Ok u, db') → Db_wf db'.
Proof.
  intros Hwf. unfold Prisma.user_create.
  destruct (existsb _ _) eqn:Hex; [discriminate|].
  intros [= <- <-]. split; simpl; try apply Hwf.
  - apply NoDup_snoc_fmap; [apply Hwf|]. simpl.
    intros (x & He & Hx)%list_elem_of_fmap.
    apply existsb_false_find in Hex.
    pose proof (find_None_not_elem _ _ _ Hex Hx) as Hne.
    unfold Prisma.has_email in Hne. by rewrite <- He, String.eqb_refl in Hne.
  - apply NoDup_snoc_fmap; [apply Hwf|]. by apply next_id_not_user.
  - eapply Forall_impl; [apply Hwf|]. intros a Ha. simpl in Ha.
    rewrite fmap_app. apply elem_of_app. by left.
  - apply Forall_app. split.
    + eapply Forall_impl; [apply Hwf|]. intros x. apply drawn_mono.
    + apply Forall_singleton. apply drawn_next.
Qed.

Lemma oAuthAccount_create_wf p sub uid (db db' : Db) a :
  Db_wf db → Prisma.oAuthAccount_create p sub uid db = (Ok a, db') → Db_wf db'.
Proof.
  intros Hwf. unfold Prisma.oAuthAccount_create.
  destruct (existsb (Prisma.has_subject p sub) _) eqn:Hsub; [discriminate|].
  destruct (existsb (λ a, Prisma.owned_by uid a && Prisma.is_provider p a) _)
    eqn:Hup; [discriminate|].
  destruct (existsb _ (users db)) eqn:Hfk; simpl; [|discriminate].
  intros [= <- <-]. split; simpl; try apply Hwf.
  - apply NoDup_snoc_fmap; [apply Hwf|]. simpl.
    intros (x & [= Hp Hs] & Hx)%list_elem_of_fmap.
    apply existsb_false_find in Hsub.
    pose proof (find_None_not_elem _ _ _ Hsub Hx) as Hne.
    rewrite (proj2 (has_subject_spec p sub x)) in Hne; done.
  - apply NoDup_snoc_fmap; [apply Hwf|]. simpl.
    intros (x & [= Hu Hp] & Hx)%list_elem_of_fmap.
    apply existsb_false_find in Hup.
    pose proof (find_None_not_elem _ _ _ Hup Hx) as Hne. simpl in Hne.
    rewrite (proj2 (owned_provider_spec uid p x)) in Hne; done.
  - apply Forall_app. split; [apply Hwf|]. apply Forall_singleton. simpl.
    apply existsb_elem in Hfk as (u & Hu & Hid).
    apply String.eqb_eq in Hid. apply list_elem_of_fmap. by exists u.
  - eapply Forall_impl; [apply Hwf|]. intros x. apply drawn_mono.
Qed.

Section invariant.
Context `{!Bcrypt, !JwtService}.
Import AuthService.

(** Every operation of the service, whatever its outcome, leaves a database
    that satisfies the schema's constraints. *)
Lemma register_wf data db : Db_wf db → Db_wf (snd (register data db)).
Proof.
  intros Hwf. unfold register, bind, Prisma.user_findFirst.
  destruct (find _ _); [done|].
  destruct (Prisma.user_create _ db) as [[u|e] db1] eqn:Hc.
  - simpl. by eapply user_create_wf.
  - unfold Prisma.user_create in Hc.
    destruct (existsb _ _); by simplify_eq.
Qed.

Lemma login_wf data db : Db_wf db → Db_wf (snd (login data db)).
Proof.
  intros Hwf. unfold login, bind, Prisma.user_findFirst.
  destruct (find _ _); [|done].
  destruct (negb (Js.truthy _)); [done|].
  by destruct (negb (bcrypt_compare _ _)).
Qed.

Lemma oAuthAccount_create_wf_any p sub uid db :
  Db_wf db → Db_wf (snd (Prisma.oAuthAccount_create p sub uid db)).
Proof.
  intros Hwf.
  destruct (Prisma.oAuthAccount_create p sub uid db) as [[a|e] db1] eqn:Hc.
  - simpl. by eapply oAuthAccount_create_wf.
  - unfold Prisma.oAuthAccount_create in Hc.
    destruct (existsb (Prisma.has_subject p sub) _); [by simplify_eq|].
    destruct (existsb _ (oauthAccounts db)); [by simplify_eq|].
    destruct (negb _); by simplify_eq.
Qed.

Lemma OAuthGoogleCallback_wf g db :
  Db_wf db → Db_wf (snd (OAuthGoogleCallback g db)).
Proof.
  intros Hwf.
  unfold OAuthGoogleCallback, bind at 1, Prisma.user_findFirst_include.
  destruct (find _ (users db)) as [u|].
  - destruct (find _ _); [done|]. unfold bind.
    pose proof (oAuthAccount_create_wf_any Google (sub g) (User.id u) db Hwf)
      as Hwf1.
    by destruct (Prisma.oAuthAccount_create _ _ _ _) as [[a|e] db1].
  - unfold bind at 1.
    destruct (Prisma.user_create _ db) as [[u|e] db1] eqn:Hc.
    + apply (user_create_wf _ _ _ _ Hwf) in Hc. unfold bind.
      pose proof (oAuthAccount_create_wf_any Google (sub g) (User.id u) db1 Hc)
        as Hwf2.
      by destruct (Prisma.oAuthAccount_create _ _ _ _) as [[a|e] db2].
    + unfold Prisma.user_create in Hc.
      destruct (existsb _ _); by simplify_eq.
Qed.

End invariant.

(** * The claims on concrete databases and requests *)

Lemma empty_wf : Db_wf Sample.empty.
Proof. wf_by_computation. Qed.

Lemma registered_wf : Db_wf Sample.registered.
Proof. wf_by_computation. Qed.

Lemma two_factor_wf : Db_wf Scenario.two_factor.
Proof. wf_by_computation. Qed.

Lemma deactivated_wf : Db_wf Scenario.deactivated.
Proof. wf_by_computation. Qed.

Lemma only_bob_wf : Db_wf Scenario.only_bob.
Proof. wf_by_computation. Qed.

Lemma bob_and_alice_wf : Db_wf Scenario.bob_and_alice.
Proof. wf_by_computation. Qed.

Section concrete.
Import AuthService AuthGuard Sample Scenario.



(** C2 fails as stated: an unknown email and a wrong password are both
    answered with a BadRequest, status 400; the client sees one status for
    the two failures, and no NotFound. *)
Lemma login_failures_share_one_status :
  login carol_login registered =
    (Throw (BadRequestException "User not found!"), registered)
  ∧ login alice_wrong registered =
    (Throw (BadRequestException "Email or Password incorrect"), registered)
  ∧ getStatus (BadRequestException "User not found!")
    = getStatus (BadRequestException "Email or Password incorrect").
Proof. split; [by vm_compute|]. split; [by vm_compute | done]. Qed.

Lemma login_failures_are_bad_requests_witness :
  Db_wf registered
  ∧ login carol_login registered =
      (Throw (BadRequestException "User not found!"), registered)
  ∧ login alice_wrong registered =
      (Throw (BadRequestException "Email or Password incorrect"), registered).
Proof.
  split; [exact registered_wf|].
  destruct (login_failures_are_bad_requests alice_wrong registered
              registered_wf) as (_ & _ & Hbad & _).
  split.
  - apply (proj1 (login_failures_are_bad_requests carol_login registered
                    registered_wf)).
    intros (u & Hin & He). apply list_elem_of_singleton in Hin. by subst.
  - apply (Hbad alice (Reference.hash "pw123!" 12));
      [left | reflexivity | reflexivity | discriminate | by vm_compute].
Defined.

(** C3 fails as stated: Alice exists and has no Google account, but the
    subject id is the providerId of Bob's Google account; the callback
    throws, and no OAuthAccount row is created for Alice. *)
Lemma oauth_link_rejected_for_taken_subject :
  alice2 ∈ users bob_and_alice
  ∧ User.email alice2 = g_email alice_google
  ∧ count_accounts (User.id alice2) Google bob_and_alice = 0
  ∧ OAuthGoogleCallback alice_google bob_and_alice =
      (Throw (PrismaClientKnownRequestError "P2002"
                "oauthaccount_provider_providerId_key"), bob_and_alice).
Proof.
  split; [right; left|]. split; [done|]. split; by vm_compute.
Qed.

Lemma oauth_link_is_idempotent_witness :
  Db_wf registered
  ∧ OAuthGoogleCallback alice_google registered =
      (Ok (TokenObject (signAsync (payload_of (User.id alice)))),
       mkDb (users registered)
            (oauthAccounts registered ++
               [OAuthAccount.mk (cuid (idCount registered)) (User.id alice)
                  Google (sub alice_google)])
            (refreshTokens registered) (S (idCount registered)))
  ∧ ∀ later : JwtService,
      @OAuthGoogleCallback later alice_google
        (mkDb (users registered)
              (oauthAccounts registered ++
                 [OAuthAccount.mk (cuid (idCount registered)) (User.id alice)
                    Google (sub alice_google)])
              (refreshTokens registered) (S (idCount registered)))
      = (Ok (TokenObject (@signAsync later (payload_of (User.id alice)))),
         mkDb (users registered)
              (oauthAccounts registered ++
                 [OAuthAccount.mk (cuid (idCount registered)) (User.id alice)
                    Google (sub alice_google)])
              (refreshTokens registered) (S (idCount registered))).
Proof.
  destruct (oauth_link_is_idempotent alice_google registered alice
              registered_wf ltac:(left) eq_refl) as (Hlink & _ & Htwice).
  assert (¬ has_account (User.id alice) Google registered) as Hacc.
  { intros (a & Hin & _). simpl in Hin. by apply elem_of_nil in Hin. }
  assert (¬ subject_linked Google (sub alice_google) registered) as Hsub.
  { intros (a & Hin & _). simpl in Hin. by apply elem_of_nil in Hin. }
  split; [exact registered_wf|]. split; [exact (Hlink Hacc Hsub)|].
  exact (proj1 (proj2 (Htwice _ _ (Hlink Hacc Hsub)))).
Defined.



(** C5 fails as stated: Alice has two-factor authentication enabled, and
    [login] with her email and password returns the token directly. *)
Lemma login_with_two_factor_returns_token :
  alice_2fa ∈ users two_factor
  ∧ User.isTwoFA alice_2fa = true
  ∧ login alice_login two_factor = (Ok (TokenObject "jwt.c0"), two_factor).
Proof. split; [left|]. split; [done | by vm_compute]. Qed.

Lemma login_ignores_two_factor_flag_witness :
  Db_wf two_factor
  ∧ login alice_login two_factor =
      (Ok (TokenObject (signAsync (payload_of (User.id alice_2fa)))),
       two_factor).
Proof.
  split; [exact two_factor_wf|].
  apply (login_ignores_two_factor_flag alice_login two_factor alice_2fa
           (Reference.hash "pw123!" 12) two_factor_wf);
    [left | reflexivity | reflexivity | reflexivity | discriminate
    | by vm_compute].
Defined.

(** C7 fails as stated: Alice is deactivated, and the callback for her
    email returns a token. *)
Lemma oauth_for_deactivated_user_returns_token :
  alice_off ∈ users deactivated
  ∧ User.isActive alice_off = false
  ∧ User.email alice_off = g_email alice_google
  ∧ OAuthGoogleCallback alice_google deactivated =
      (Ok (TokenObject "jwt.c0"), deactivated).
Proof. split; [left|]. split; [done|]. split; [done | by vm_compute]. Qed.

Lemma oauth_ignores_active_flag_witness :
  Db_wf deactivated
  ∧ ∃ db', OAuthGoogleCallback alice_google deactivated =
             (Ok (TokenObject (signAsync (payload_of (User.id alice_off)))),
              db').
Proof.
  split; [exact deactivated_wf|].
  apply (oauth_ignores_active_flag alice_google deactivated alice_off
           deactivated_wf);
    [left | reflexivity | reflexivity |].
  left. exists (OAuthAccount.mk (cuid 1) (cuid 0) Google "g-100").
  split; [left | split; reflexivity].
Defined.

(** The token of C8's request is a valid one, and the guard refuses it. *)
Lemma canActivate_ignores_authorization_header_witness :
  verifyAsync "jwt.c0" = Some {[ "userId" := "c0" ]}
  ∧ canActivate bearer_request = Throw (ForbiddenException "Token invalid").
Proof.
  split; [reflexivity|].
  apply (canActivate_ignores_authorization_header bearer_request
           "jwt.c0" {[ "userId" := "c0" ]} ∅);
    [by vm_compute | reflexivity | by vm_compute | reflexivity
    | by vm_compute].
Defined.

Lemma login_signs_user_id_only_witness :
  login alice_login registered = (Ok (TokenObject "jwt.c0"), registered)
  ∧ ∃ u, u ∈ users registered ∧ User.email u = l_email alice_login
         ∧ TokenObject "jwt.c0"
           = TokenObject (signAsync (payload_of (User.id u)))
         ∧ payload_of (User.id u) !! "userId" = Some (User.id u)
         ∧ payload_of (User.id u) !! "role" = None
         ∧ payload_of (User.id u) !! "id" = None.
Proof.
  assert (login alice_login registered
          = (Ok (TokenObject "jwt.c0"), registered)) as Hl by (by vm_compute).
  split; [exact Hl|].
  exact (login_signs_user_id_only alice_login registered registered _ Hl).
Defined.

(** The guard, given the token [login] returned to Alice, attaches neither
    her id nor her role: both fields of [request.user] are undefined. *)
Lemma guard_resolves_login_token_to_nothing :
  login alice_login registered = (Ok (TokenObject "jwt.c0"), registered)
  ∧ match canActivate cookie_request with
    | Ok request => user request
    | Throw _ => None
    end = Some {| user_id := None; user_role := None |}.
Proof. split; by vm_compute. Qed.

Lemma auth_operations_leave_refresh_tokens_witness :
  login alice_login registered = (Ok (TokenObject "jwt.c0"), registered)
  ∧ refreshTokens (snd (register alice_dto registered))
    = refreshTokens registered
  ∧ single_jwt (TokenObject "jwt.c0").
Proof.
  assert (login alice_login registered
          = (Ok (TokenObject "jwt.c0"), registered)) as Hl by (by vm_compute).
  destruct (auth_operations_leave_refresh_tokens registered alice_dto
              alice_login alice_google) as (Hreg & _ & _ & Hone).
  split; [exact Hl|]. split; [exact Hreg|].
  apply (Hone _ registered). right. left. exact Hl.
Defined.

Lemma alice_session_wf : TokenIssuer.wf alice_session.
Proof. split; cbn [users refreshTokens idCount]; compute_done. Qed.

Lemma refresh_tokens_are_single_use_witness :
  TokenIssuer.wf alice_session
  ∧ (∃ pair db1,
       TokenIssuer.refresh 10 (TokenIssuer.randomToken 0) alice_session
         = (inr pair, db1)
       ∧ TokenIssuer.refresh 11 (TokenIssuer.randomToken 0) db1
         = (inl TokenIssuer.InvalidToken, db1)
       ∧ ∃ pair' db2,
           TokenIssuer.refresh 11 (TokenIssuer.refreshToken pair) db1
           = (inr pair', db2))
  ∧ TokenIssuer.refresh 10 "never-issued" alice_session
    = (inl TokenIssuer.InvalidToken, alice_session).
Proof.
  split; [exact alice_session_wf|].
  destruct (refresh_tokens_are_single_use alice_session 10
              (TokenIssuer.randomToken 0) alice_session_wf)
    as (Honce & _ & _ & Hlive).
  destruct (refresh_tokens_are_single_use alice_session 10
              "never-issued" alice_session_wf) as (_ & Habsent & _).
  split.
  - destruct (Hlive (RefreshToken.mk (cuid 1) (TokenIssuer.randomToken 0)
                       (cuid 0) 1000)) as (pair & db1 & Hrot);
      [by vm_compute | by vm_compute |].
    exists pair, db1. split; [exact Hrot|].
    destruct (Honce pair db1 Hrot) as (_ & Hdead & Hnew).
    split; [apply Hdead|]. apply Hnew. by vm_compute.
  - apply Habsent. by vm_compute.
Defined.

End concrete.

(** * Further properties of the service, the guard and the seeder *)

(** ** Every outcome of the three operations *)

Lemma find_snoc_hit {A} (f : A → bool) (l : list A) x :
  find f l = None → f x = true → find f (l ++ [x]) = Some x.
Proof.
  induction l as [|y l IH]; simpl; intros Hl Hx; [by rewrite Hx|].
  destruct (f y); [discriminate | by apply IH].
Qed.

Lemma find_app_keep {A} (f : A → bool) (l l' : list A) x :
  find f l = Some x → find f (l ++ l') = Some x.
Proof.
  induction l as [|y l IH]; simpl; [discriminate|].
  destruct (f y); [done | exact IH].
Qed.

Section outcomes.
Context `{!Bcrypt, !JwtService}.
Import AuthService.

Lemma register_outcome (data : RegisterDto) (db : Db) :
  (user_with_email (r_email data) db
   ∧ register data db = (Throw (ConflictException "User already exists"), db))
  ∨ (¬ user_with_email (r_email data) db
     ∧ ∃ u, register data db =
              (Ok (BareToken (signAsync (payload_of (User.id u)))), add_user db u)
            ∧ User.id u = cuid (idCount db)
            ∧ User.email u = r_email data
            ∧ User.password u = Some (bcrypt_hash (r_password data) 12)
            ∧ plain_customer u).
Proof.
  destruct (user_with_email_dec (r_email data) db) as [Hex|Hno].
  - left. split; [done|]. by apply register_taken.
  - right. split; [done|]. eexists (Prisma.new_user _ _).
    split; [by apply register_fresh|]. by repeat split.
Qed.

Lemma login_outcome (data : LoginDto) (db : Db) :
  snd (login data db) = db
  ∧ ((∃ e, fst (login data db) = Throw e)
     ∨ ∃ u stored, u ∈ users db ∧ User.email u = l_email data
         ∧ User.password u = Some stored ∧ stored ≠ ""
         ∧ bcrypt_compare (l_password data) stored = true
         ∧ fst (login data db)
           = Ok (TokenObject (signAsync (payload_of (User.id u))))).
Proof.
  destruct (find (Prisma.has_email (l_email data)) (users db)) as [u|] eqn:Hf.
  - rewrite (login_found _ _ _ Hf).
    apply find_Some_elem in Hf as [Hin He]. apply String.eqb_eq in He.
    split; [done|]. simpl.
    destruct (User.password u) as [stored|] eqn:Hpw; simpl; [|left; by eexists].
    destruct (String.eqb_spec stored "") as [->|Hne]; simpl; [left; by eexists|].
    destruct (bcrypt_compare _ _) eqn:Hcmp; simpl; [|left; by eexists].
    right. by exists u, stored.
  - apply find_email_None in Hf. rewrite (login_unknown _ _ Hf).
    split; [done|]. left. by eexists.
Qed.

Lemma account_create_outcome p sub uid db :
  (∃ e, Prisma.oAuthAccount_create p sub uid db = (Throw e, db))
  ∨ Prisma.oAuthAccount_create p sub uid db =
      (Ok (OAuthAccount.mk (cuid (idCount db)) uid p sub),
       add_account db (OAuthAccount.mk (cuid (idCount db)) uid p sub)).
Proof.
  unfold Prisma.oAuthAccount_create.
  destruct (existsb (Prisma.has_subject p sub) _); [left; by eexists|].
  destruct (existsb _ (oauthAccounts db)); [left; by eexists|].
  destruct (negb _); [left; by eexists|]. by right.
Qed.

Lemma oauth_new_unfold (g : GoogleUser) (db : Db) :
  ¬ user_with_email (g_email g) db →
  OAuthGoogleCallback g db =
    match Prisma.oAuthAccount_create Google (sub g) (cuid (idCount db))
            (add_user db (Prisma.new_user (idCount db) (google_user_data g)))
    with
    | (Ok _, db2) => (token_for (cuid (idCount db)), db2)
    | (Throw e, db2) => (Throw e, db2)
    end.
Proof.
  intros Hno.
  unfold OAuthGoogleCallback, bind at 1, Prisma.user_findFirst_include.
  rewrite (proj2 (find_email_None _ _) Hno).
  unfold bind at 1. fold (google_user_data g).
  rewrite (user_create_fresh (google_user_data g) db Hno).
  unfold bind, add_user. cbn [User.id Prisma.new_user].
  by destruct (Prisma.oAuthAccount_create _ _ _ _) as [[a|e] db2].
Qed.

(** The five ways a callback can end. *)
Lemma oauth_outcome (g : GoogleUser) (db : Db) :
  (∃ u, u ∈ users db ∧ User.email u = g_email g
        ∧ has_account (User.id u) Google db
        ∧ OAuthGoogleCallback g db = (token_for (User.id u), db))
  ∨ (∃ u, u ∈ users db ∧ User.email u = g_email g
        ∧ ¬ has_account (User.id u) Google db
        ∧ OAuthGoogleCallback g db =
            (token_for (User.id u),
             add_account db (OAuthAccount.mk (cuid (idCount db)) (User.id u)
                               Google (sub g))))
  ∨ (∃ e, user_with_email (g_email g) db
        ∧ OAuthGoogleCallback g db = (Throw e, db))
  ∨ (¬ user_with_email (g_email g) db
     ∧ OAuthGoogleCallback g db =
         (token_for (cuid (idCount db)),
          add_account
            (add_user db (Prisma.new_user (idCount db) (google_user_data g)))
            (OAuthAccount.mk (cuid (S (idCount db))) (cuid (idCount db))
               Google (sub g))))
  ∨ (∃ e, ¬ user_with_email (g_email g) db
        ∧ OAuthGoogleCallback g db =
            (Throw e,
             add_user db (Prisma.new_user (idCount db) (google_user_data g)))).
Proof.
  destruct (find (Prisma.has_email (g_email g)) (users db)) as [u|] eqn:Hf.
  - pose proof (find_Some_elem _ _ _ Hf) as [Hin He].
    apply String.eqb_eq in He.
    destruct (has_account_dec (User.id u) Google db) as [Hacc|Hacc].
    { left. exists u. repeat split; try done. by apply oauth_linked. }
    destruct (subject_linked_dec Google (sub g) db) as [Hsub|Hsub].
    + right. right. left. eexists. split; [by exists u|].
      by apply (oauth_link_rejected g db u).
    + right. left. exists u. repeat split; try done. by apply oauth_link.
  - apply find_email_None in Hf. right. right. right.
    rewrite (oauth_new_unfold g db Hf).
    destruct (account_create_outcome Google (sub g) (cuid (idCount db))
                (add_user db (Prisma.new_user (idCount db) (google_user_data g))))
      as [[e ->]| ->].
    + right. by exists e.
    + left. done.
Qed.

End outcomes.

(** ** register on the request body *)

Section body_lemmas.
Context `{!Bcrypt, !JwtService}.
Import AuthService RequestBody.

Lemma override_no_extras n d :
  override no_extras (Prisma.new_user n d) = Prisma.new_user n d.
Proof. reflexivity. Qed.

(** On a body with the declared fields only, the handler is
    [AuthService.register]. *)
Lemma register_body_declared (body : RegisterBody) (db : Db) :
  declared_only body → register_body body db = register (declared body) db.
Proof.
  unfold declared_only. intros Hx.
  unfold register_body, register, bind at 1 3, Prisma.user_findFirst.
  destruct (find _ _); [done|].
  unfold bind, user_create_nested, transaction, bind, user_insert,
    Prisma.user_create. rewrite Hx. cbn [Prisma.data_email].
  destruct (existsb _ _); [done|]. simpl. by rewrite override_no_extras.
Qed.

(** A body without nested writes on the account relation: the user row goes
    in with the columns the body names, then the refresh tokens it names. *)
Lemma register_body_fresh (body : RegisterBody) (db : Db) :
  ¬ user_with_email (r_email (declared body)) db →
  x_accounts (extras body) = [] →
  let u := override (extras body)
             (Prisma.new_user (idCount db)
                {| Prisma.data_email := r_email (declared body);
                   Prisma.data_password :=
                     Some (bcrypt_hash (r_password (declared body)) 12);
                   Prisma.data_username := Some (r_username (declared body));
                   Prisma.data_firstName := Some (r_firstName (declared body));
                   Prisma.data_lastName := Some (r_lastName (declared body)) |}) in
  register_body body db =
    match nested_refreshTokens (User.id u) (x_refreshTokens (extras body))
            (add_user db u) with
    | (Ok _, db') => (Ok (BareToken (signAsync (payload_of (User.id u)))), db')
    | (Throw e, _) => (Throw e, db)
    end.
Proof.
  intros Hno Hacc u. apply find_email_None in Hno.
  unfold register_body, bind at 1, Prisma.user_findFirst. rewrite Hno.
  unfold bind at 1, user_create_nested, transaction, bind at 1, user_insert.
  cbn [Prisma.data_email].
  rewrite (proj2 (existsb_false_find _ _) Hno). rewrite Hacc.
  cbn [nested_accounts]. unfold bind at 1, ret at 1. fold u.
  unfold bind at 1, add_user.
  destruct (nested_refreshTokens _ _ _) as [[[]|e] db']; reflexivity.
Qed.

End body_lemmas.

Section body_claims.
Context `{!Bcrypt, !JwtService}.
Import AuthService RequestBody.

(** C10, what the code does: [register] hands the request body to
    [db.user.create] whole.  For a body that carries, besides the declared
    fields, a nested create on the user's relation to [refresh_token],
    [register] creates that RefreshToken row, owned by the user it creates,
    and returns its single token as usual. *)
Theorem register_creates_nested_refresh_token (body : RegisterBody)
    (db : Db) c :
  ¬ user_with_email (r_email (declared body)) db →
  x_accounts (extras body) = [] →
  x_refreshTokens (extras body) = [c] →
  (∀ r, r ∈ refreshTokens db → RefreshToken.token r ≠ c_token c) →
  ∃ u row db',
    register_body body db =
      (Ok (BareToken (signAsync (payload_of (User.id u)))), db')
    ∧ users db' = users db ++ [u]
    ∧ refreshTokens db' = refreshTokens db ++ [row]
    ∧ RefreshToken.token row = c_token c
    ∧ RefreshToken.expiresAt row = c_expiresAt c
    ∧ RefreshToken.userId row = User.id u.
Proof.
  intros Hno Hacc Hrt Hfresh.
  rewrite (register_body_fresh body db Hno Hacc), Hrt.
  cbn [nested_refreshTokens]. unfold bind, refreshToken_insert, add_user.
  cbn [refreshTokens users oauthAccounts idCount].
  assert (existsb (λ r, String.eqb (RefreshToken.token r) (c_token c))
                  (refreshTokens db) = false) as ->.
  { apply not_true_is_false. rewrite existsb_elem.
    intros (r & Hin & Hr). apply String.eqb_eq in Hr. by apply (Hfresh r). }
  eexists _, _, _. split; [reflexivity|]. by repeat split.
Qed.


End body_claims.

(** ** How the operations compose *)

Section composition.
Context `{!Bcrypt, !JwtService}.
Import AuthService.

Lemma has_credential_mono db db' u :
  (∀ a, a ∈ oauthAccounts db → a ∈ oauthAccounts db') →
  has_credential db u → has_credential db' u.
Proof.
  intros Hsub [Hpw|(a & Hin & Ha)]; [by left|].
  right. exists a. split; [by apply Hsub | done].
Qed.

(** X1: register, then login.  After a successful [register], the token
    returned is one for the user just created, and [login] with the same
    email and password, at whatever later instant, succeeds with a token
    signed for that same user, while a password that does not compare is
    refused; this, for a bcrypt whose hash is a non-empty string that
    compares with its plaintext. *)
Theorem register_then_login (data : RegisterDto) (db db1 : Db) r :
  bcrypt_hash (r_password data) 12 ≠ "" →
  bcrypt_compare (r_password data) (bcrypt_hash (r_password data) 12) = true →
  register data db = (Ok r, db1) →
  ∃ u, u ∈ users db1 ∧ User.email u = r_email data
    ∧ r = BareToken (signAsync (payload_of (User.id u)))
    ∧ ∀ later : JwtService,
        @login _ later
          {| l_email := r_email data; l_password := r_password data |} db1
          = (Ok (TokenObject (@signAsync later (payload_of (User.id u)))), db1)
        ∧ ∀ other,
            bcrypt_compare other (bcrypt_hash (r_password data) 12) = false →
            @login _ later
              {| l_email := r_email data; l_password := other |} db1
              = (Throw (BadRequestException "Email or Password incorrect"),
                 db1).
Proof.
  intros Hne Hcmp Hreg.
  destruct (register_outcome data db) as [[_ Hr]|[Hno (u & Hr & _ & He & Hpw & _)]];
    rewrite Hr in Hreg; [discriminate|].
  inversion Hreg; subst. clear Hreg.
  assert (find (Prisma.has_email (r_email data)) (users (add_user db u))
          = Some u) as Hf.
  { apply find_snoc_hit; [by apply find_email_None|].
    unfold Prisma.has_email. rewrite He. apply String.eqb_refl. }
  apply String.eqb_neq in Hne.
  exists u. split; [simpl; apply elem_of_app; right; by left|].
  split; [done|]. split; [done|]. intros later. split.
  - rewrite (@login_found _ later
               {| l_email := r_email data; l_password := r_password data |}
               _ u Hf).
    cbn [l_password]. rewrite Hpw. simpl. by rewrite Hne, Hcmp.
  - intros other Hother.
    rewrite (@login_found _ later
               {| l_email := r_email data; l_password := other |} _ u Hf).
    cbn [l_password]. rewrite Hpw. simpl. by rewrite Hne, Hother.
Qed.

(** X2: an email registers once.  After a successful [register], every
    further [register] with that email, whatever the other fields, fails with
    Conflict and leaves the database as it is. *)
Theorem register_twice_conflicts (data data' : RegisterDto) (db db1 : Db) r :
  register data db = (Ok r, db1) →
  r_email data' = r_email data →
  register data' db1
    = (Throw (ConflictException "User already exists"), db1).
Proof.
  intros Hreg He'.
  destruct (register_outcome data db) as [[_ Hr]|[Hno (u & Hr & _ & He & _)]];
    rewrite Hr in Hreg; [discriminate|].
  inversion Hreg; subst. apply register_taken. exists u. split.
  - unfold add_user. simpl. apply elem_of_app. right. by left.
  - by rewrite He'.
Qed.

(** X3: the schema's constraints are an invariant of the service.  From a
    database that satisfies the unique indexes, the primary and the foreign
    key, each of register, login and OAuthGoogleCallback leaves one that
    does, whether it returns or throws. *)
Theorem auth_service_keeps_schema (db : Db)
    (rd : RegisterDto) (ld : LoginDto) (g : GoogleUser) :
  Db_wf db →
  Db_wf (snd (register rd db))
  ∧ Db_wf (snd (login ld db))
  ∧ Db_wf (snd (OAuthGoogleCallback g db)).
Proof.
  intros Hwf. split; [by apply register_wf|].
  split; [by apply login_wf | by apply OAuthGoogleCallback_wf].
Qed.

Lemma extends_refl db : extends db db.
Proof.
  exists [], []. rewrite !app_nil_r. simpl. repeat split; lia.
Qed.

Lemma extends_add_user db u : extends db (add_user db u).
Proof.
  exists [u], []. rewrite app_nil_r. simpl. repeat split; lia.
Qed.

Lemma extends_add_account db a : extends db (add_account db a).
Proof.
  exists [], [a]. rewrite app_nil_r. simpl. repeat split; lia.
Qed.

Lemma extends_add_both db u a : extends db (add_account (add_user db u) a).
Proof.
  exists [u], [a]. simpl. repeat split; lia.
Qed.

(** X4: rows are only ever appended.  Whatever its outcome, register on a
    body that carries the declared fields only leaves the database with at
    most one user row appended and the accounts as they were,
    OAuthGoogleCallback leaves it with at most one user row and one account
    row appended, and login leaves it exactly as it was (the last-login time
    included): none of these updates or deletes a row or touches a refresh
    token. *)
Theorem operations_only_append (db : Db)
    (body : RequestBody.RegisterBody) (ld : LoginDto) (g : GoogleUser) :
  (RequestBody.declared_only body →
     extends db (snd (RequestBody.register_body body db))
     ∧ oauthAccounts (snd (RequestBody.register_body body db))
       = oauthAccounts db)
  ∧ snd (login ld db) = db
  ∧ extends db (snd (OAuthGoogleCallback g db)).
Proof.
  split; [|split].
  - intros Hbody. rewrite (register_body_declared body db Hbody). split.
    + destruct (register_outcome (RequestBody.declared body) db)
        as [[_ ->]|[_ (u & -> & _)]];
        [apply extends_refl | apply extends_add_user].
    + by destruct (register_outcome (RequestBody.declared body) db)
        as [[_ ->]|[_ (u & -> & _)]].
  - apply login_outcome.
  - destruct (oauth_outcome g db)
      as [(u & _ & _ & _ & ->)|[(u & _ & _ & _ & ->)|[(e & _ & ->)
         |[[_ ->]|(e & _ & ->)]]]]; simpl.
    + apply extends_refl.
    + apply extends_add_account.
    + apply extends_refl.
    + apply extends_add_both.
    + apply extends_add_user.
Qed.

Lemma new_user_plain n d : plain_customer (Prisma.new_user n d).
Proof. by repeat split. Qed.

Lemma elem_of_snoc {A} (l : list A) (x y : A) :
  y ∈ l ++ [x] → y ∈ l ∨ y = x.
Proof.
  intros [Hin|Hin]%elem_of_app; [by left|].
  right. by apply list_elem_of_singleton in Hin.
Qed.

(** X5: on declared fields the service grants nothing.  Every user row
    found after login, after OAuthGoogleCallback, or after register on a body
    that carries the declared fields only, either was there before or is a
    plain customer: role CUSTOMER, two-factor off and without secret, active,
    email unverified, never logged in. *)
Theorem created_users_are_plain_customers (db : Db)
    (body : RequestBody.RegisterBody) (ld : LoginDto) (g : GoogleUser) u :
  RequestBody.declared_only body
    ∧ u ∈ users (snd (RequestBody.register_body body db))
  ∨ u ∈ users (snd (login ld db))
  ∨ u ∈ users (snd (OAuthGoogleCallback g db)) →
  u ∈ users db ∨ plain_customer u.
Proof.
  intros [[Hbody Hin]|[Hin|Hin]].
  - rewrite (register_body_declared body db Hbody) in Hin.
    destruct (register_outcome (RequestBody.declared body) db)
      as [[_ Hr]|[_ (v & Hr & _ & _ & _ & Hplain)]];
      rewrite Hr in Hin; simpl in Hin; [by left|].
    apply elem_of_snoc in Hin as [?| ->]; [by left | by right].
  - rewrite (proj1 (login_outcome ld db)) in Hin. by left.
  - destruct (oauth_outcome g db)
      as [(v & _ & _ & _ & Hr)|[(v & _ & _ & _ & Hr)|[(e & _ & Hr)
         |[[_ Hr]|(e & _ & Hr)]]]]; rewrite Hr in Hin; simpl in Hin;
      try (by left).
    + apply elem_of_snoc in Hin as [?| ->]; [by left|].
      right. apply new_user_plain.
    + apply elem_of_snoc in Hin as [?| ->]; [by left|].
      right. apply new_user_plain.
Qed.

(** X6: an operation that succeeds leaves every user a way to sign in.  If
    every user has a stored password or a linked account, the same holds
    after any login or OAuthGoogleCallback that returns, and after any
    register that returns on a body that carries the declared fields only. *)
Theorem successful_operations_keep_credentials (db db' : Db)
    (body : RequestBody.RegisterBody) (ld : LoginDto) (g : GoogleUser) r :
  all_have_credentials db →
  RequestBody.declared_only body
    ∧ RequestBody.register_body body db = (Ok r, db')
  ∨ login ld db = (Ok r, db')
  ∨ OAuthGoogleCallback g db = (Ok r, db') →
  all_have_credentials db'.
Proof.
  intros Hall [[Hbody Hop]|[Hop|Hop]].
  - rewrite (register_body_declared body db Hbody) in Hop.
    destruct (register_outcome (RequestBody.declared body) db)
      as [[_ Hr]|[_ (v & Hr & _ & _ & Hpw & _)]];
      rewrite Hr in Hop; [discriminate|].
    inversion Hop; subst. intros u Hin. simpl in Hin.
    apply elem_of_snoc in Hin as [Hin| ->].
    + by apply (has_credential_mono db), Hall.
    + left. by rewrite Hpw.
  - pose proof (proj1 (login_outcome ld db)) as Hsame.
    rewrite Hop in Hsame. simpl in Hsame. by subst.
  - destruct (oauth_outcome g db)
      as [(v & _ & _ & _ & Hr)|[(v & _ & _ & _ & Hr)|[(e & _ & Hr)
         |[[_ Hr]|(e & _ & Hr)]]]]; rewrite Hr in Hop;
      unfold token_for in Hop; try discriminate; inversion Hop; subst.
    + done.
    + intros u Hin. apply (has_credential_mono db); [|by apply Hall].
      intros a Ha. simpl. apply elem_of_app. by left.
    + intros u Hin. simpl in Hin. apply elem_of_snoc in Hin as [Hin| ->].
      * apply (has_credential_mono db); [|by apply Hall].
        intros a Ha. simpl. apply elem_of_app. by left.
      * right. eexists. split; [simpl; apply elem_of_app; right; by left|].
        reflexivity.
Qed.

(** X7: an account created by the callback has no password login.  When no
    user had the asserted email and the callback succeeds, [login] with that
    email fails with BadRequest "password no set" for every password. *)
Theorem oauth_created_user_has_no_password_login (g : GoogleUser)
    (db db' : Db) r :
  ¬ user_with_email (g_email g) db →
  OAuthGoogleCallback g db = (Ok r, db') →
  ∀ pw, login {| l_email := g_email g; l_password := pw |} db'
        = (Throw (BadRequestException "password no set"), db').
Proof.
  intros Hno Hop pw.
  destruct (oauth_outcome g db)
    as [(v & Hin & He & _)|[(v & Hin & He & _)|[(e & Hex & _)
       |[[_ Hr]|(e & _ & Hr)]]]].
  - exfalso. apply Hno. by exists v.
  - exfalso. apply Hno. by exists v.
  - done.
  - rewrite Hr in Hop. inversion Hop; subst.
    rewrite (login_found {| l_email := g_email g; l_password := pw |} _
               (Prisma.new_user (idCount db) (google_user_data g)));
      [done|].
    simpl. apply find_snoc_hit; [by apply find_email_None|].
    unfold Prisma.has_email. simpl. apply String.eqb_refl.
  - by rewrite Hr in Hop.
Qed.


End composition.

(** ** String.prototype.split as the source uses it *)

Lemma split_cons_other sep x s :
  Ascii.eqb x sep = false →
  Js.split sep (String x s)
  = match Js.split sep s with
    | piece :: pieces => String x piece :: pieces
    | [] => [String x EmptyString]
    end.
Proof. intros Hx. simpl. by rewrite Hx. Qed.

Lemma split_free sep s : free_of sep s = true → Js.split sep s = [s].
Proof.
  induction s as [|x s IH]; [done|]. simpl.
  intros [Hx Hs]%andb_true_iff. apply negb_true_iff in Hx.
  by rewrite Hx, (IH Hs).
Qed.

Lemma split_cut sep a b :
  free_of sep a = true →
  Js.split sep (String.append a (String sep b)) = a :: Js.split sep b.
Proof.
  induction a as [|x a IH]; intros Ha.
  - change (String.append "" (String sep b)) with (String sep b).
    simpl. by rewrite Ascii.eqb_refl.
  - simpl in Ha. apply andb_true_iff in Ha as [Hx Ha].
    apply negb_true_iff in Hx.
    change (String.append (String x a) (String sep b))
      with (String x (String.append a (String sep b))).
    by rewrite (split_cons_other _ _ _ Hx), (IH Ha).
Qed.

(** ** AuthGuard *)

Section guard_more.
Context `{!JwtService}.
Import AuthGuard.

Lemma canActivate_unfold (request : Request) :
  canActivate request =
    if Js.truthy (header_token request)
    then match verify (header_token request) with
         | Some payload => Ok (attach request payload)
         | None => Throw (ForbiddenException "Token invalid")
         end
    else match cookies request with
         | Some c =>
             match verify (c !! "token") with
             | Some payload => Ok (attach request payload)
             | None => Throw (ForbiddenException "Token invalid")
             end
         | None => Throw (TypeError
             "Cannot read properties of undefined (reading 'token')")
         end.
Proof.
  unfold canActivate, attach.
  destruct (Js.truthy (header_token request)); simpl; [done|].
  by destruct (cookies request).
Qed.

(** X9: the guard reads the second word of the header and never the scheme.
    For a header value made of two words without spaces, joined by one
    space, the token the guard extracts is the second word, whatever the
    first is. *)
Theorem header_token_is_second_word (request : Request) scheme tok :
  headers request !! "authoriztion"
    = Some (String.append scheme (String " " tok)) →
  free_of " " scheme = true → free_of " " tok = true →
  header_token request = Some tok.
Proof.
  intros Hh Hs Ht. unfold header_token. rewrite Hh.
  by rewrite (split_cut _ _ _ Hs), (split_free _ _ Ht).
Qed.

(** X10: a usable header token takes precedence.  When the header the guard
    reads yields a non-empty token, the outcome is decided by that token
    alone: the cookie is not read, not even to fall back on it when the
    header's token fails verification, and a missing cookie object is no
    error. *)
Theorem canActivate_header_precedes_cookie (request : Request) tok :
  header_token request = Some tok → tok ≠ "" →
  canActivate request =
    match verifyAsync tok with
    | Some payload => Ok (attach request payload)
    | None => Throw (ForbiddenException "Token invalid")
    end.
Proof.
  intros Hh Hne. rewrite canActivate_unfold, Hh. simpl.
  apply String.eqb_neq in Hne. by rewrite Hne.
Qed.

(** X11: the guard admits only on a verified token.  If [canActivate]
    returns, some token presented by the request, in the header the guard
    reads or else in the [token] cookie, was verified, and the request it
    passes on is the incoming one with [user] overwritten by the payload's
    [id] and [role]. *)
Theorem canActivate_admits_only_verified (request request' : Request) :
  canActivate request = Ok request' →
  ∃ tok payload,
    (header_token request = Some tok ∧ tok ≠ ""
     ∨ Js.truthy (header_token request) = false
       ∧ ∃ c, cookies request = Some c ∧ c !! "token" = Some tok)
    ∧ verifyAsync tok = Some payload
    ∧ request' = attach request payload.
Proof.
  rewrite canActivate_unfold.
  destruct (header_token request) as [tok|] eqn:Hh; simpl.
  - destruct (String.eqb_spec tok "") as [->|Hne]; simpl.
    + destruct (cookies request) as [c|]; [|discriminate].
      destruct (c !! "token") as [t|] eqn:Ht; simpl; [|discriminate].
      destruct (verifyAsync t) as [payload|] eqn:Hv; [|discriminate].
      intros [= <-]. exists t, payload. split; [|done].
      right. split; [done|]. by exists c.
    + destruct (verifyAsync tok) as [payload|] eqn:Hv; [|discriminate].
      intros [= <-]. exists tok, payload. split; [by left | done].
  - destruct (cookies request) as [c|]; [|discriminate].
    destruct (c !! "token") as [t|] eqn:Ht; simpl; [|discriminate].
    destruct (verifyAsync t) as [payload|] eqn:Hv; [|discriminate].
    intros [= <-]. exists t, payload. split; [|done].
    right. split; [done|]. by exists c.
Qed.

(** X12: how the guard fails.  A refusal is Forbidden "Token invalid"
    (403), except that a request without a usable header token meets a
    TypeError (500) exactly when it has no cookie object. *)
Theorem canActivate_failures (request : Request) e :
  canActivate request = Throw e →
  (e = ForbiddenException "Token invalid" ∧ getStatus e = 403
   ∧ (Js.truthy (header_token request) = true ∨ is_Some (cookies request)))
  ∨ (getStatus e = 500 ∧ Js.truthy (header_token request) = false
     ∧ cookies request = None).
Proof.
  rewrite canActivate_unfold.
  destruct (Js.truthy (header_token request)) eqn:Htr.
  - destruct (verify _); [discriminate|]. intros [= <-].
    left. split; [done|]. split; [done | by left].
  - destruct (cookies request) as [c|] eqn:Hc.
    + destruct (verify _); [discriminate|]. intros [= <-].
      left. split; [done|]. split; [done | by right].
    + intros [= <-]. by right.
Qed.

End guard_more.

(** ** The service's tokens at the guard *)

Section service_and_guard.
Context `{!Bcrypt, !JwtService}.
Import AuthService AuthGuard.

(** X13: no token the service issues identifies anyone at the guard.  With
    a JwtService that returns the claims it signed, the token of every
    successful register, login or OAuthGoogleCallback, presented in the
    [token] cookie, passes the guard, and the identity attached has neither
    id nor role. *)
Theorem issued_tokens_resolve_to_nothing (db db' : Db)
    (rd : RegisterDto) (ld : LoginDto) (g : GoogleUser) r :
  jwt_returns_claims →
  register rd db = (Ok r, db')
  ∨ login ld db = (Ok r, db')
  ∨ OAuthGoogleCallback g db = (Ok r, db') →
  ∃ request',
    canActivate (cookie_only (response_token r)) = Ok request'
    ∧ user request' = Some {| user_id := None; user_role := None |}.
Proof.
  intros Hjwt Hop.
  assert (single_jwt r) as [[uid Htok] _].
  { destruct Hop as [Hop|[Hop|Hop]].
    - by eapply register_single_jwt.
    - by eapply login_single_jwt.
    - by eapply OAuthGoogleCallback_single_jwt. }
  destruct (Hjwt uid) as (payload & Hv & Hclaims).
  rewrite canActivate_unfold. unfold header_token, cookie_only. simpl.
  rewrite lookup_empty. simpl. rewrite lookup_singleton_eq. simpl.
  rewrite Htok, Hv. eexists. split; [reflexivity|]. simpl.
  rewrite (Hclaims "id"), (Hclaims "role") by done.
  unfold payload_of. by rewrite !lookup_singleton_ne.
Qed.

End service_and_guard.

(** ** The user name the callback gives a new user *)

Section username.
Context `{!JwtService}.
Import AuthService.

(** X14: the user name of a user created by the callback.  When the
    callback creates the user, the row appended has the asserted user name if
    that is a non-empty string; otherwise the part of the email before its
    first [@], and the whole email if it has none. *)
Theorem oauth_username_defaults_to_local_part (g : GoogleUser)
    (db db' : Db) r :
  ¬ user_with_email (g_email g) db →
  OAuthGoogleCallback g db = (Ok r, db') →
  ∃ u, users db' = users db ++ [u]
    ∧ User.email u = g_email g
    ∧ (Js.truthy (g_username g) = true → User.username u = g_username g)
    ∧ (∀ local rest, Js.truthy (g_username g) = false →
         g_email g = String.append local (String "@" rest) →
         free_of "@" local = true →
         User.username u = Some local)
    ∧ (Js.truthy (g_username g) = false → free_of "@" (g_email g) = true →
         User.username u = Some (g_email g)).
Proof.
  intros Hno Hop.
  destruct (oauth_outcome g db)
    as [(v & Hin & He & _)|[(v & Hin & He & _)|[(e & Hex & _)
       |[[_ Hr]|(e & _ & Hr)]]]].
  - exfalso. apply Hno. by exists v.
  - exfalso. apply Hno. by exists v.
  - done.
  - rewrite Hr in Hop. inversion Hop; subst. clear Hop.
    exists (Prisma.new_user (idCount db) (google_user_data g)).
    split; [done|]. split; [done|]. simpl. unfold Js.or_else, Js.truthy.
    split; [|split].
    + destruct (g_username g) as [s|]; [|discriminate].
      by destruct (String.eqb s "").
    + intros local rest Hfalsy Heq Hfree. rewrite Heq.
      rewrite (split_cut _ _ _ Hfree). simpl.
      destruct (g_username g) as [s|]; [|done].
      by destruct (String.eqb s "").
    + intros Hfalsy Hfree. rewrite (split_free _ _ Hfree). simpl.
      destruct (g_username g) as [s|]; [|done].
      by destruct (String.eqb s "").
  - by rewrite Hr in Hop.
Qed.

End username.

(** ** SeederService *)

Lemma add_user_wf db u :
  Db_wf db → ¬ user_with_email (User.email u) db →
  User.id u = cuid (idCount db) → Db_wf (add_user db u).
Proof.
  intros Hwf Hno Hid. split; simpl; try apply Hwf.
  - apply NoDup_snoc_fmap; [apply Hwf|].
    intros (x & He & Hx)%list_elem_of_fmap. apply Hno. by exists x.
  - apply NoDup_snoc_fmap; [apply Hwf|]. rewrite Hid.
    by apply next_id_not_user.
  - eapply Forall_impl; [apply Hwf|]. intros a Ha. simpl in Ha.
    rewrite fmap_app. apply elem_of_app. by left.
  - apply Forall_app. split.
    + eapply Forall_impl; [apply Hwf|]. intros x. apply drawn_mono.
    + apply Forall_singleton. rewrite Hid. apply drawn_next.
Qed.

Section seeder_props.
Context `{!Bcrypt, !JwtService}.
Import SeederService.

(** The administrator row the seeder writes. *)
Lemma seeded_admin_fields cfg n :
  let u := with_role SUPER_ADMIN (Prisma.new_user n (admin_data cfg)) in
  User.id u = cuid n ∧ User.email u = SUPERADMIN_EMAIL cfg
  ∧ User.username u = Some (SUPERADMIN_USERNAME cfg)
  ∧ User.password u = Some (bcrypt_hash (SUPERADMIN_PASSWORD cfg) 10)
  ∧ User.role u = SUPER_ADMIN ∧ as_created u.
Proof. repeat split. by right. Qed.

(** The three ways a start of the module can end. *)
Lemma seed_outcome cfg db :
  (∃ u, u ∈ users db ∧ User.username u = Some (SUPERADMIN_USERNAME cfg)
        ∧ onModuleInit cfg db = (Warned "Superadmin existed", db))
  ∨ (find (has_username (SUPERADMIN_USERNAME cfg)) (users db) = None
     ∧ user_with_email (SUPERADMIN_EMAIL cfg) db
     ∧ onModuleInit cfg db =
         (Errored (PrismaClientKnownRequestError "P2002" "user_email_key"), db))
  ∨ (find (has_username (SUPERADMIN_USERNAME cfg)) (users db) = None
     ∧ ¬ user_with_email (SUPERADMIN_EMAIL cfg) db
     ∧ onModuleInit cfg db =
         (Logged "SUPERADMIN CREATED",
          add_user db (with_role SUPER_ADMIN
                         (Prisma.new_user (idCount db) (admin_data cfg))))).
Proof.
  unfold onModuleInit, seedAll, seedUsers, bind, user_findFirst_username.
  destruct (find _ _) as [u|] eqn:Hf.
  - left. exists u. apply find_Some_elem in Hf as [Hin Hu].
    split; [done|]. split; [|done]. unfold has_username in Hu.
    destruct (User.username u) as [x|]; [|discriminate].
    by apply String.eqb_eq in Hu as ->.
  - right. unfold user_create_role. cbn [Prisma.data_email admin_data].
    destruct (existsb _ _) eqn:Hex.
    + left. split; [done|]. split; [|done].
      destruct (user_with_email_dec (SUPERADMIN_EMAIL cfg) db) as [?|Hno];
        [done|].
      apply find_email_None, existsb_false_find in Hno. congruence.
    + right. split; [done|]. split; [|done].
      by apply find_email_None, existsb_false_find.
Qed.

Lemma find_username_None n db :
  (∀ u, u ∈ users db → User.username u ≠ Some n) →
  find (has_username n) (users db) = None.
Proof.
  intros Hall. destruct (find _ _) as [u|] eqn:Hf; [|done].
  apply find_Some_elem in Hf as [Hin Hu]. exfalso. apply (Hall u Hin).
  unfold has_username in Hu. destruct (User.username u) as [x|]; [|discriminate].
  by apply String.eqb_eq in Hu as ->.
Qed.

(** X15: seeding is idempotent.  Starting the module a second time leaves
    the database the first start left; and when the first start created the
    administrator, the second finds it and only warns. *)
Theorem seeding_is_idempotent cfg db :
  snd (onModuleInit cfg (snd (onModuleInit cfg db)))
    = snd (onModuleInit cfg db)
  ∧ (fst (onModuleInit cfg db) = Logged "SUPERADMIN CREATED" →
     fst (onModuleInit cfg (snd (onModuleInit cfg db)))
       = Warned "Superadmin existed").
Proof.
  destruct (seed_outcome cfg db)
    as [(u & Hin & Hu & Hr)|[(Hf & Hex & Hr)|(Hf & Hno & Hr)]];
    rewrite Hr; simpl.
  - rewrite Hr. by split.
  - rewrite Hr. by split.
  - set (admin := with_role SUPER_ADMIN
                    (Prisma.new_user (idCount db) (admin_data cfg))).
    destruct (seed_outcome cfg (add_user db admin))
      as [(u & _ & _ & Hr')|[(Hf' & _)|(Hf' & _)]].
    + rewrite Hr'. by split.
    + exfalso. simpl in Hf'.
      rewrite (find_snoc_hit _ _ admin Hf) in Hf'; [discriminate|].
      unfold has_username. simpl. apply String.eqb_refl.
    + exfalso. simpl in Hf'.
      rewrite (find_snoc_hit _ _ admin Hf) in Hf'; [discriminate|].
      unfold has_username. simpl. apply String.eqb_refl.
Qed.

(** X16: the seeded administrator can log in.  When neither the configured
    user name nor the configured email is in use, a start of the module
    appends one user with role SUPER_ADMIN, and [login] with the configured
    email and password then returns the token for that user; this, for a
    bcrypt whose ten-round hash is a non-empty string that compares with its
    plaintext. *)
Theorem seeded_admin_can_login cfg db :
  (∀ u, u ∈ users db → User.username u ≠ Some (SUPERADMIN_USERNAME cfg)) →
  ¬ user_with_email (SUPERADMIN_EMAIL cfg) db →
  bcrypt_hash (SUPERADMIN_PASSWORD cfg) 10 ≠ "" →
  bcrypt_compare (SUPERADMIN_PASSWORD cfg)
                 (bcrypt_hash (SUPERADMIN_PASSWORD cfg) 10) = true →
  ∃ admin,
    onModuleInit cfg db = (Logged "SUPERADMIN CREATED", add_user db admin)
    ∧ User.role admin = SUPER_ADMIN
    ∧ User.email admin = SUPERADMIN_EMAIL cfg
    ∧ AuthService.login
        {| AuthService.l_email := SUPERADMIN_EMAIL cfg;
           AuthService.l_password := SUPERADMIN_PASSWORD cfg |}
        (add_user db admin)
      = (Ok (AuthService.TokenObject
               (signAsync (AuthService.payload_of (User.id admin)))),
         add_user db admin).
Proof.
  intros Hname Hno Hne Hcmp.
  pose proof (find_username_None _ _ Hname) as Hf.
  destruct (seed_outcome cfg db)
    as [(u & Hin & Hu & _)|[(_ & Hex & _)|(_ & _ & Hr)]].
  - by destruct (Hname u Hin).
  - done.
  - eexists. split; [exact Hr|]. split; [done|]. split; [done|].
    rewrite (login_found
               {| AuthService.l_email := SUPERADMIN_EMAIL cfg;
                  AuthService.l_password := SUPERADMIN_PASSWORD cfg |} _
               (with_role SUPER_ADMIN
                  (Prisma.new_user (idCount db) (admin_data cfg)))).
    + simpl. apply String.eqb_neq in Hne. by rewrite Hne, Hcmp.
    + simpl. apply find_snoc_hit; [by apply find_email_None|].
      unfold Prisma.has_email. simpl. apply String.eqb_refl.
Qed.

(** X17: the seeder writes nothing over a taken name or email.  If any
    user, of whatever role, already has the configured user name, a start
    only warns: nobody is created or promoted.  If the name is free but the
    configured email belongs to a user, the creation is rejected, the
    rejection is caught and logged, and the database is unchanged. *)
Theorem seeding_skips_taken_name_or_email cfg db :
  (∀ u, u ∈ users db → User.username u = Some (SUPERADMIN_USERNAME cfg) →
     onModuleInit cfg db = (Warned "Superadmin existed", db))
  ∧ ((∀ u, u ∈ users db → User.username u ≠ Some (SUPERADMIN_USERNAME cfg)) →
     user_with_email (SUPERADMIN_EMAIL cfg) db →
     onModuleInit cfg db =
       (Errored (PrismaClientKnownRequestError "P2002" "user_email_key"), db)).
Proof.
  split.
  - intros u Hin Hu.
    destruct (seed_outcome cfg db) as [(_ & _ & _ & Hr)|[(Hf & _)|(Hf & _)]];
      [done| |].
    + pose proof (find_None_not_elem _ _ _ Hf Hin) as Hn.
      unfold has_username in Hn. by rewrite Hu, String.eqb_refl in Hn.
    + pose proof (find_None_not_elem _ _ _ Hf Hin) as Hn.
      unfold has_username in Hn. by rewrite Hu, String.eqb_refl in Hn.
  - intros Hname Hex.
    destruct (seed_outcome cfg db)
      as [(u & Hin & Hu & _)|[(_ & _ & Hr)|(_ & Hno & _)]]; [|done|done].
    by destruct (Hname u Hin).
Qed.

Lemma onModuleInit_wf cfg db : Db_wf db → Db_wf (snd (onModuleInit cfg db)).
Proof.
  intros Hwf.
  destruct (seed_outcome cfg db)
    as [(u & _ & _ & ->)|[(_ & _ & ->)|(_ & Hno & ->)]]; simpl; [done|done|].
  by apply add_user_wf.
Qed.

End seeder_props.

(** ** Histories of requests on declared fields *)

Section reachable.
Context `{!Bcrypt, !JwtService}.
Import AuthService.

Lemma plain_customer_as_created u : plain_customer u → as_created u.
Proof. intros (Hr & ?). split; [by left | done]. Qed.

(** One request or restart: rows are appended, the new users are as
    created, and the schema is kept. *)
Lemma step_appends (db : Db) (op : Op) :
  declared_op op →
  extends db (step db op)
  ∧ (∀ u, u ∈ users (step db op) → u ∈ users db ∨ as_created u)
  ∧ (Db_wf db → Db_wf (step db op)).
Proof.
  destruct op as [body|data|g|cfg]; simpl; intros Hop.
  - rewrite (register_body_declared body db Hop).
    split; [|split; [|by apply register_wf]].
    + destruct (register_outcome (RequestBody.declared body) db)
        as [[_ ->]|[_ (u & -> & _)]];
        [apply extends_refl | apply extends_add_user].
    + intros u.
      destruct (register_outcome (RequestBody.declared body) db)
        as [[_ ->]|[_ (v & -> & _ & _ & _ & Hplain)]]; simpl; [by left|].
      intros [?| ->]%elem_of_snoc; [by left|].
      right. by apply plain_customer_as_created.
  - rewrite (proj1 (login_outcome data db)).
    split; [apply extends_refl|]. split; [by left | done].
  - split; [|split; [|by apply OAuthGoogleCallback_wf]].
    + destruct (oauth_outcome g db)
        as [(u & _ & _ & _ & ->)|[(u & _ & _ & _ & ->)|[(e & _ & ->)
           |[[_ ->]|(e & _ & ->)]]]]; simpl.
      * apply extends_refl.
      * apply extends_add_account.
      * apply extends_refl.
      * apply extends_add_both.
      * apply extends_add_user.
    + intros u.
      destruct (oauth_outcome g db)
        as [(v & _ & _ & _ & ->)|[(v & _ & _ & _ & ->)|[(e & _ & ->)
           |[[_ ->]|(e & _ & ->)]]]]; simpl; try (by left).
      * intros [?| ->]%elem_of_snoc; [by left|].
        right. apply plain_customer_as_created, new_user_plain.
      * intros [?| ->]%elem_of_snoc; [by left|].
        right. apply plain_customer_as_created, new_user_plain.
  - split; [|split; [|by apply onModuleInit_wf]].
    + destruct (seed_outcome cfg db)
        as [(u & _ & _ & ->)|[(_ & _ & ->)|(_ & _ & ->)]]; simpl;
        [apply extends_refl | apply extends_refl | apply extends_add_user].
    + intros u.
      destruct (seed_outcome cfg db)
        as [(v & _ & _ & ->)|[(_ & _ & ->)|(_ & _ & ->)]]; simpl;
        try (by left).
      intros [?| ->]%elem_of_snoc; [by left|].
      right. apply seeded_admin_fields.
Qed.

Lemma step_sound (db : Db) (op : Op) :
  declared_op op → sound_state db → sound_state (step db op).
Proof.
  intros Hop (Hwf & Hrt & Hus & Hcount).
  destruct (step_appends db op Hop)
    as ((us & accs & Hu & Ha & _ & _ & Hrt' & Hid) & Hnew & Hwf').
  split; [by apply Hwf'|]. split; [by rewrite Hrt'|]. split.
  - apply Forall_forall. intros u Hin.
    destruct (Hnew u Hin) as [Hold|?]; [|done].
    rewrite Forall_forall in Hus. by apply Hus.
  - rewrite Hid, Hu, Ha, !length_app, Hcount. lia.
Qed.

(** X18: the states reached on declared fields.  From a database that
    satisfies the schema, holds no refresh token, has only users as the code
    creates them and has drawn one identifier per row, every history of
    logins, Google callbacks, restarts, and registrations whose bodies carry
    the declared fields only, leads to such a database: along such a history
    no user is deactivated, gets two-factor authentication switched on or a
    verified email, and no role other than CUSTOMER and the seeder's
    SUPER_ADMIN appears. *)
Theorem reachable_states_are_sound (ops : list Op) (db : Db) :
  sound_state db → Forall declared_op ops → sound_state (run ops db).
Proof.
  unfold run. revert db.
  induction ops as [|op ops IH]; intros db Hdb Hops; [done|].
  apply Forall_cons in Hops as [Hop Hops].
  simpl. by apply IH; [apply step_sound|].
Qed.

End reachable.

(** ** The further properties on concrete databases and requests *)

Lemma reference_returns_claims : jwt_returns_claims.
Proof.
  intros uid. exists (AuthService.payload_of uid). split; [|done].
  unfold AuthService.payload_of. simpl. unfold Reference.sign.
  by rewrite lookup_singleton_eq.
Qed.

Lemma reference_hash_compares data :
  Reference.hash data 12 ≠ ""
  ∧ Reference.compare data (Reference.hash data 12) = true
  ∧ Reference.hash data 10 ≠ ""
  ∧ Reference.compare data (Reference.hash data 10) = true.
Proof.
  unfold Reference.compare. rewrite !String.eqb_refl, orb_true_r.
  repeat split; discriminate.
Qed.

Lemma empty_sound : sound_state Sample.empty.
Proof. split; [exact empty_wf|]. split; [done|]. split; [constructor | done]. Qed.

Section concrete_more.
Import AuthService AuthGuard SeederService Sample Scenario Seeds.

Lemma register_then_login_witness :
  register alice_dto empty = (Ok (BareToken "jwt.c0"), registered)
  ∧ ∃ u, u ∈ users registered
      ∧ BareToken "jwt.c0" = BareToken (signAsync (payload_of (User.id u)))
      ∧ @login _ reference_jwt_later alice_login registered
        = (Ok (TokenObject
                 (@signAsync reference_jwt_later (payload_of (User.id u)))),
           registered)
      ∧ @login _ reference_jwt_later alice_wrong registered
        = (Throw (BadRequestException "Email or Password incorrect"),
           registered).
Proof.
  assert (register alice_dto empty = (Ok (BareToken "jwt.c0"), registered))
    as Hreg by (by vm_compute).
  destruct (@register_then_login reference_bcrypt reference_jwt
              alice_dto empty registered _
              (proj1 (reference_hash_compares "pw123!"))
              (proj1 (proj2 (reference_hash_compares "pw123!"))) Hreg)
    as (u & Hin & _ & Htok & Hlater).
  destruct (Hlater reference_jwt_later) as [Hok Hbad].
  split; [exact Hreg|]. exists u. split; [exact Hin|]. split; [exact Htok|].
  split; [exact Hok|]. apply (Hbad "guess"). by vm_compute.
Defined.

Lemma register_twice_conflicts_witness :
  register alice_dto empty = (Ok (BareToken "jwt.c0"), registered)
  ∧ register alice_dto registered
    = (Throw (ConflictException "User already exists"), registered).
Proof.
  assert (register alice_dto empty = (Ok (BareToken "jwt.c0"), registered))
    as Hreg by (by vm_compute).
  split; [exact Hreg|].
  exact (register_twice_conflicts alice_dto alice_dto empty registered _
           Hreg eq_refl).
Defined.

Lemma auth_service_keeps_schema_witness :
  Db_wf bob_and_alice
  ∧ Db_wf (snd (register alice_dto bob_and_alice))
  ∧ Db_wf (snd (login alice_login bob_and_alice))
  ∧ Db_wf (snd (OAuthGoogleCallback alice_google bob_and_alice)).
Proof.
  split; [exact bob_and_alice_wf|].
  exact (auth_service_keeps_schema bob_and_alice alice_dto alice_login
           alice_google bob_and_alice_wf).
Defined.

Lemma operations_only_append_witness :
  RequestBody.declared_only
    {| RequestBody.declared := alice_dto;
       RequestBody.extras := RequestBody.no_extras |}
  ∧ extends empty
      (snd (RequestBody.register_body
              {| RequestBody.declared := alice_dto;
                 RequestBody.extras := RequestBody.no_extras |} empty)).
Proof.
  split; [reflexivity|].
  exact (proj1 (proj1 (operations_only_append empty
                         {| RequestBody.declared := alice_dto;
                            RequestBody.extras := RequestBody.no_extras |}
                         alice_login alice_google) eq_refl)).
Defined.

Lemma created_users_are_plain_customers_witness :
  alice ∈ users (snd (RequestBody.register_body
                        {| RequestBody.declared := alice_dto;
                           RequestBody.extras := RequestBody.no_extras |}
                        empty))
  ∧ (alice ∈ users empty ∨ plain_customer alice).
Proof.
  assert (alice ∈ users (snd (RequestBody.register_body
                                {| RequestBody.declared := alice_dto;
                                   RequestBody.extras := RequestBody.no_extras |}
                                empty))) as Hin.
  { vm_compute. left. }
  split; [exact Hin|].
  apply (created_users_are_plain_customers empty
           {| RequestBody.declared := alice_dto;
              RequestBody.extras := RequestBody.no_extras |}
           alice_login alice_google alice).
  left. split; [reflexivity | exact Hin].
Defined.

Lemma successful_operations_keep_credentials_witness :
  all_have_credentials registered
  ∧ ∃ db', OAuthGoogleCallback alice_google registered
             = (Ok (TokenObject "jwt.c0"), db')
           ∧ oauthAccounts db' ≠ []
           ∧ all_have_credentials db'.
Proof.
  assert (all_have_credentials registered) as Hall.
  { intros u Hin. apply list_elem_of_singleton in Hin. subst.
    left. by eexists. }
  assert (∃ db', OAuthGoogleCallback alice_google registered
                 = (Ok (TokenObject "jwt.c0"), db')
                 ∧ oauthAccounts db' ≠ []) as (db' & Hop & Hacc).
  { eexists. split; [by vm_compute | discriminate]. }
  split; [exact Hall|]. exists db'. split; [exact Hop|].
  split; [exact Hacc|].
  apply (successful_operations_keep_credentials registered db'
           {| RequestBody.declared := alice_dto;
              RequestBody.extras := RequestBody.no_extras |}
           alice_login alice_google (TokenObject "jwt.c0") Hall).
  right. right. exact Hop.
Defined.

Lemma oauth_created_user_has_no_password_login_witness :
  ¬ user_with_email (g_email alice_google) empty
  ∧ ∃ db', OAuthGoogleCallback alice_google empty
             = (Ok (TokenObject "jwt.c0"), db')
           ∧ login alice_login db'
             = (Throw (BadRequestException "password no set"), db').
Proof.
  assert (¬ user_with_email (g_email alice_google) empty) as Hno.
  { intros (u & Hin & _). simpl in Hin. by apply elem_of_nil in Hin. }
  split; [exact Hno|]. eexists. split; [by vm_compute|].
  apply (oauth_created_user_has_no_password_login alice_google empty _
           (TokenObject "jwt.c0") Hno).
  by vm_compute.
Defined.


Lemma header_token_is_second_word_witness :
  header_token {| headers := {[ "authoriztion" := "Basic jwt.c0" ]};
                  cookies := None; user := None |}
  = Some "jwt.c0".
Proof.
  apply (header_token_is_second_word _ "Basic" "jwt.c0");
    [by vm_compute | reflexivity | reflexivity].
Defined.

Lemma canActivate_header_precedes_cookie_witness :
  canActivate {| headers := {[ "authoriztion" := "Bearer forged" ]};
                 cookies := Some {[ "token" := "jwt.c0" ]}; user := None |}
  = Throw (ForbiddenException "Token invalid").
Proof.
  rewrite (@canActivate_header_precedes_cookie reference_jwt _ "forged");
    [reflexivity | by vm_compute | discriminate].
Defined.

Lemma canActivate_admits_only_verified_witness :
  ∃ tok payload,
    (header_token cookie_request = Some tok ∧ tok ≠ ""
     ∨ Js.truthy (header_token cookie_request) = false
       ∧ ∃ c, cookies cookie_request = Some c ∧ c !! "token" = Some tok)
    ∧ verifyAsync tok = Some payload
    ∧ attach cookie_request {[ "userId" := "c0" ]}
      = attach cookie_request payload.
Proof.
  apply (canActivate_admits_only_verified cookie_request
           (attach cookie_request {[ "userId" := "c0" ]})).
  rewrite canActivate_unfold. reflexivity.
Defined.

Lemma canActivate_failures_witness :
  canActivate bearer_request = Throw (ForbiddenException "Token invalid")
  ∧ (ForbiddenException "Token invalid" = ForbiddenException "Token invalid"
     ∧ getStatus (ForbiddenException "Token invalid") = 403
     ∧ (Js.truthy (header_token bearer_request) = true
        ∨ is_Some (cookies bearer_request))
     ∨ getStatus (ForbiddenException "Token invalid") = 500
       ∧ Js.truthy (header_token bearer_request) = false
       ∧ cookies bearer_request = None).
Proof.
  assert (canActivate bearer_request
          = Throw (ForbiddenException "Token invalid")) as Hc.
  { rewrite canActivate_unfold. reflexivity. }
  split; [exact Hc|].
  exact (canActivate_failures bearer_request _ Hc).
Defined.

Lemma issued_tokens_resolve_to_nothing_witness :
  login alice_login registered = (Ok (TokenObject "jwt.c0"), registered)
  ∧ ∃ request',
      canActivate (cookie_only (response_token (TokenObject "jwt.c0")))
        = Ok request'
      ∧ user request' = Some {| user_id := None; user_role := None |}.
Proof.
  assert (login alice_login registered
          = (Ok (TokenObject "jwt.c0"), registered)) as Hl by (by vm_compute).
  split; [exact Hl|].
  apply (issued_tokens_resolve_to_nothing registered registered alice_dto
           alice_login alice_google (TokenObject "jwt.c0")
           reference_returns_claims).
  right. left. exact Hl.
Defined.

Lemma oauth_username_defaults_to_local_part_witness :
  ∃ db' u,
    OAuthGoogleCallback alice_google empty = (Ok (TokenObject "jwt.c0"), db')
    ∧ users db' = users empty ++ [u]
    ∧ User.username u = Some "alice".
Proof.
  assert (¬ user_with_email (g_email alice_google) empty) as Hno.
  { intros (u & Hin & _). simpl in Hin. by apply elem_of_nil in Hin. }
  assert (∃ db', OAuthGoogleCallback alice_google empty
                 = (Ok (TokenObject "jwt.c0"), db')) as [db' Hop].
  { eexists. by vm_compute. }
  destruct (oauth_username_defaults_to_local_part alice_google empty db' _
              Hno Hop) as (u & Hus & _ & _ & Hlocal & _).
  exists db', u. split; [exact Hop|]. split; [exact Hus|].
  apply (Hlocal "alice" "example.com"); reflexivity.
Defined.

Lemma seeding_is_idempotent_witness :
  fst (onModuleInit config empty) = Logged "SUPERADMIN CREATED"
  ∧ fst (onModuleInit config (snd (onModuleInit config empty)))
    = Warned "Superadmin existed"
  ∧ snd (onModuleInit config (snd (onModuleInit config empty)))
    = snd (onModuleInit config empty).
Proof.
  assert (fst (onModuleInit config empty) = Logged "SUPERADMIN CREATED")
    as Hfirst by (by vm_compute).
  destruct (seeding_is_idempotent config empty) as [Hsame Hwarn].
  split; [exact Hfirst|]. split; [exact (Hwarn Hfirst) | exact Hsame].
Defined.

Lemma seeded_admin_can_login_witness :
  ∃ admin,
    onModuleInit config empty
      = (Logged "SUPERADMIN CREATED", add_user empty admin)
    ∧ User.role admin = SUPER_ADMIN
    ∧ User.email admin = SUPERADMIN_EMAIL config
    ∧ login {| l_email := SUPERADMIN_EMAIL config;
               l_password := SUPERADMIN_PASSWORD config |}
            (add_user empty admin)
      = (Ok (TokenObject (signAsync (payload_of (User.id admin)))),
         add_user empty admin).
Proof.
  apply (@seeded_admin_can_login reference_bcrypt reference_jwt config empty).
  - intros u Hin. simpl in Hin. by apply elem_of_nil in Hin.
  - intros (u & Hin & _). simpl in Hin. by apply elem_of_nil in Hin.
  - exact (proj1 (proj2 (proj2 (reference_hash_compares "s3cret")))).
  - exact (proj2 (proj2 (proj2 (reference_hash_compares "s3cret")))).
Defined.

Lemma seeding_skips_taken_name_or_email_witness :
  User.role squatter = CUSTOMER
  ∧ onModuleInit config squatted = (Warned "Superadmin existed", squatted)
  ∧ onModuleInit config email_taken
    = (Errored (PrismaClientKnownRequestError "P2002" "user_email_key"),
       email_taken).
Proof.
  split; [reflexivity|]. split.
  - apply (proj1 (seeding_skips_taken_name_or_email config squatted) squatter);
      [left | reflexivity].
  - apply (proj2 (seeding_skips_taken_name_or_email config email_taken)).
    + intros u Hin. apply list_elem_of_singleton in Hin. subst. discriminate.
    + exists namesake. split; [left | reflexivity].
Defined.

Lemma reachable_states_are_sound_witness :
  sound_state Sample.empty
  ∧ sound_state
      (run [Restart config;
            Register {| RequestBody.declared := alice_dto;
                        RequestBody.extras := RequestBody.no_extras |};
            Callback alice_google; Login alice_login; Restart config]
           Sample.empty).
Proof.
  split; [exact empty_sound|].
  apply (reachable_states_are_sound _ Sample.empty empty_sound).
  repeat constructor.
Defined.

End concrete_more.

(** ** What login looks at *)

Section login_inputs.
Context `{!Bcrypt, !JwtService}.
Import AuthService.

(** X19: login looks at the id and the stored password only.  If the users
    that two databases hold under the email have the same id and the same
    stored password, [login] answers the same in both, whatever their role,
    active flag, two-factor flag or email verification. *)
Theorem login_depends_on_id_and_password_only (data : LoginDto)
    (db1 db2 : Db) u1 u2 :
  Db_wf db1 → Db_wf db2 →
  u1 ∈ users db1 → u2 ∈ users db2 →
  User.email u1 = l_email data → User.email u2 = l_email data →
  User.id u1 = User.id u2 → User.password u1 = User.password u2 →
  fst (login data db1) = fst (login data db2).
Proof.
  intros Hwf1 Hwf2 Hin1 Hin2 He1 He2 Hid Hpw.
  rewrite (login_found data db1 u1), (login_found data db2 u2).
  - simpl. by rewrite Hid, Hpw.
  - rewrite <- He2. by apply find_email_unique.
  - rewrite <- He1. by apply find_email_unique.
Qed.

End login_inputs.

Lemma login_depends_on_id_and_password_only_witness :
  fst (AuthService.login Scenario.alice_login Sample.registered)
  = fst (AuthService.login Scenario.alice_login Scenario.two_factor).
Proof.
  apply (login_depends_on_id_and_password_only Scenario.alice_login
           Sample.registered Scenario.two_factor Sample.alice
           Scenario.alice_2fa registered_wf two_factor_wf);
    [left | left | reflexivity | reflexivity | reflexivity | reflexivity].
Defined.

(** ** register on concrete bodies *)

Section concrete_bodies.
Import AuthService RequestBody Sample Scenario.

Lemma register_creates_nested_refresh_token_witness :
  ∃ u row db',
    register_body
      {| declared := alice_dto;
         extras := {| x_role := None; x_isEmailVerified := None;
                      x_isTwoFA := None; x_twoFASecret := None;
                      x_isActive := None; x_accounts := [];
                      x_refreshTokens :=
                        [{| c_token := "planted"; c_expiresAt := 4102444800 |}]
                   |} |} empty
      = (Ok (BareToken (signAsync (payload_of (User.id u)))), db')
    ∧ users db' = users empty ++ [u]
    ∧ refreshTokens db' = refreshTokens empty ++ [row]
    ∧ RefreshToken.token row = "planted"
    ∧ RefreshToken.expiresAt row = 4102444800%N
    ∧ RefreshToken.userId row = User.id u.
Proof.
  apply (register_creates_nested_refresh_token
           {| declared := alice_dto;
              extras := {| x_role := None; x_isEmailVerified := None;
                           x_isTwoFA := None; x_twoFASecret := None;
                           x_isActive := None; x_accounts := [];
                           x_refreshTokens :=
                             [{| c_token := "planted";
                                 c_expiresAt := 4102444800 |}] |} |}
           empty {| c_token := "planted"; c_expiresAt := 4102444800 |});
    [|reflexivity|reflexivity|].
  - intros (u & Hin & _). simpl in Hin. by apply elem_of_nil in Hin.
  - intros r Hin. simpl in Hin. by apply elem_of_nil in Hin.
Defined.


(** The second callback of C3 signs anew: served at a later instant, it
    writes nothing and its token, for the same user, is another string. *)
Lemma oauth_again_signs_anew :
  ∃ db1,
    OAuthGoogleCallback alice_google registered
      = (Ok (TokenObject "jwt.c0"), db1)
    ∧ @OAuthGoogleCallback reference_jwt_later alice_google db1
      = (Ok (TokenObject "jwt+1.c0"), db1).
Proof. eexists. split; by vm_compute. Qed.

End concrete_bodies.
